(** * flopy.mf6: path management and the package container

    A shallow embedding of [flopy/mf6/_file_management.py] (classes
    [MFFilePath], [MFFileMgmt]) and [flopy/mf6/mfbase.py] (classes
    [MFDataException], [PackageContainer]), with the properties of the
    path resolver and of the package registry stated and proved over it.

    Conventions of the embedding.
    - A Python [str] is a [string] (a sequence of 8-bit characters);
      [str.lower] acts on the ASCII letters.
    - [os.path] is [posixpath]; [pathlib.Path] is [PurePosixPath].  Only the
      lexical operations are modelled, as given in CPython's sources.
    - A Python [dict] that the code iterates over is an insertion-ordered
      association list ([PyDict]); a [dict] that is only indexed is a [gmap].
    - A call that may raise returns a [result]; the exception is a value of
      [exn]. *)

From Stdlib Require Import Ascii.
From stdpp Require Import base option strings pretty list gmap.

Local Open Scope Z_scope.
Local Open Scope nat_scope.

(** ** Exceptions and results *)

(** The attributes of [mfbase.MFDataException] that its constructor fills in
    from its arguments (the copy-constructor branch is not used here). *)
Record MFDataException := {
  exc_model : option string;
  exc_package : option string;
  exc_path : option string;
  exc_current_process : option string;
  exc_data_element : option string;
  exc_method_caught_in : option string;
  exc_org_value : option string;
  exc_messages : list string;
  exc_debug : bool
}.

Inductive exn :=
| AttributeError (type_name attr : string)
| IndexError
| KeyError
| TypeError
| OSError (msg : string)
| MFDataError (e : MFDataException).

Inductive result (A : Type) :=
| Ok (a : A)
| Raise (e : exn).
Arguments Ok {A} a.
Arguments Raise {A} e.

Definition rbind {A B} (r : result A) (k : A → result B) : result B :=
  match r with
  | Ok a => k a
  | Raise e => Raise e
  end.

Notation "x ← r ;;; k" := (rbind r (λ x, k))
  (at level 20, r at level 100, k at level 200, right associativity,
   format "x  ←  r  ;;;  '/' k").

(** ** Python [str] methods used by the sources *)

Module PyStr.

Definition is_upper (c : ascii) : bool :=
  (65 <=? nat_of_ascii c) && (nat_of_ascii c <=? 90).

Definition lower_char (c : ascii) : ascii :=
  if is_upper c then ascii_of_nat (nat_of_ascii c + 32) else c.

(** [s.lower()] *)
Fixpoint lower (s : string) : string :=
  match s with
  | EmptyString => EmptyString
  | String c s' => String (lower_char c) (lower s')
  end.

(** [s.replace(c, "")] for a one-character [c] *)
Fixpoint remove_char (c : ascii) (s : string) : string :=
  match s with
  | EmptyString => EmptyString
  | String a s' =>
      if Ascii.eqb a c then remove_char c s' else String a (remove_char c s')
  end.

(** [c in s] for a one-character [c] *)
Fixpoint has_char (c : ascii) (s : string) : bool :=
  match s with
  | EmptyString => false
  | String a s' => Ascii.eqb a c || has_char c s'
  end.

(** [s.startswith(c)] and [s.endswith(c)] for a one-character [c] *)
Definition startswith (c : ascii) (s : string) : bool :=
  match s with
  | EmptyString => false
  | String a _ => Ascii.eqb a c
  end.

Fixpoint endswith (c : ascii) (s : string) : bool :=
  match s with
  | EmptyString => false
  | String a EmptyString => Ascii.eqb a c
  | String _ s' => endswith c s'
  end.

(** [s.split(c)] for a one-character separator: never the empty list. *)
Fixpoint split (c : ascii) (s : string) : list string :=
  match s with
  | EmptyString => [EmptyString]
  | String a s' =>
      if Ascii.eqb a c then EmptyString :: split c s'
      else match split c s' with
           | x :: xs => String a x :: xs
           | [] => [String a EmptyString]
           end
  end.

(** [c.join(l)] *)
Fixpoint join (c : ascii) (l : list string) : string :=
  match l with
  | [] => EmptyString
  | [x] => x
  | x :: xs => x +:+ String c (join c xs)
  end.

(** [s[-1]]: the last character, [IndexError] on the empty string. *)
Fixpoint last_char (s : string) : option ascii :=
  match s with
  | EmptyString => None
  | String a EmptyString => Some a
  | String _ s' => last_char s'
  end.

(** [s[0:-1]]: all but the last character. *)
Fixpoint drop_last (s : string) : string :=
  match s with
  | EmptyString => EmptyString
  | String _ EmptyString => EmptyString
  | String a s' => String a (drop_last s')
  end.

(** [s[:n]] and [s[n:]] for [0 <= n]. *)
Fixpoint take (n : nat) (s : string) : string :=
  match n, s with
  | S n', String a s' => String a (take n' s')
  | _, _ => EmptyString
  end.

Fixpoint drop (n : nat) (s : string) : string :=
  match n, s with
  | S n', String _ s' => drop n' s'
  | _, _ => s
  end.

(** [s.rfind(c)]: the index of the last occurrence of [c], or [-1]. *)
Fixpoint rfind_from (c : ascii) (s : string) (i : nat) (found : Z) : Z :=
  match s with
  | EmptyString => found
  | String a s' =>
      rfind_from c s' (S i) (if Ascii.eqb a c then Z.of_nat i else found)
  end.

Definition rfind (c : ascii) (s : string) : Z := rfind_from c s 0 (-1)%Z.

(** [s.lstrip(c)] and [s.rstrip(c)] for a one-character [c]. *)
Fixpoint lstrip (c : ascii) (s : string) : string :=
  match s with
  | String a s' => if Ascii.eqb a c then lstrip c s' else s
  | EmptyString => EmptyString
  end.

Fixpoint rstrip (c : ascii) (s : string) : string :=
  match s with
  | EmptyString => EmptyString
  | String a s' =>
      match rstrip c s' with
      | EmptyString => if Ascii.eqb a c then EmptyString else String a EmptyString
      | r => String a r
      end
  end.

Definition all_char (c : ascii) (s : string) : bool :=
  match lstrip c s with EmptyString => true | _ => false end.

(** [int(c)] for a one-character string: the digit, [ValueError] ([None])
    on any other character. *)
Definition int_of_char (c : ascii) : option nat := Ascii.is_nat c.

Arguments remove_char c%_char s.
Arguments has_char c%_char s.
Arguments startswith c%_char s.
Arguments endswith c%_char s.
Arguments split c%_char s.
Arguments join c%_char l.
Arguments rfind c%_char s.
Arguments lstrip c%_char s.
Arguments rstrip c%_char s.
Arguments all_char c%_char s.

End PyStr.

(** ** [posixpath]: the lexical path functions of [os.path] *)

Module posixpath.

(** [isabs(s)]: [s.startswith("/")] *)
Definition isabs (s : string) : bool := PyStr.startswith "/" s.

(** [join(a, b)] for two components:
    [if b.startswith(sep): path = b]
    [elif not path or path.endswith(sep): path += b]
    [else: path += sep + b] *)
Definition join (a b : string) : string :=
  if PyStr.startswith "/" b then b
  else if bool_decide (a = "") || PyStr.endswith "/" a then a +:+ b
  else a +:+ "/" +:+ b.

(** [join] applied to a first argument that may be [None]: [os.fspath(None)]
    raises [TypeError]. *)
Definition join_opt (a : option string) (b : string) : result string :=
  match a with
  | None => Raise TypeError
  | Some a => Ok (join a b)
  end.

(** [split(p)]: [i = p.rfind(sep) + 1; head, tail = p[:i], p[i:]] and the
    trailing separators of a head that is not all separators are stripped. *)
Definition split (p : string) : string * string :=
  let i := Z.to_nat (PyStr.rfind "/" p + 1) in
  let head := PyStr.take i p in
  let tail := PyStr.drop i p in
  let head :=
    if negb (String.eqb head "") && negb (PyStr.all_char "/" head)
    then PyStr.rstrip "/" head else head in
  (head, tail).

(** [splitext(p)] ([genericpath._splitext] with [sep = "/"], [extsep = "."]):
    the extension starts at the last dot of the last component, unless that
    component has only dots before it. *)
Definition splitext (p : string) : string * string :=
  let sepIndex := PyStr.rfind "/" p in
  let dotIndex := PyStr.rfind "." p in
  if (sepIndex <? dotIndex)%Z then
    let filenameIndex := Z.to_nat (sepIndex + 1) in
    let leading := PyStr.take (Z.to_nat dotIndex - filenameIndex)
                              (PyStr.drop filenameIndex p) in
    if negb (PyStr.all_char "." leading)
    then (PyStr.take (Z.to_nat dotIndex) p, PyStr.drop (Z.to_nat dotIndex) p)
    else (p, "")
  else (p, "").

End posixpath.

(** ** [pathlib.PurePosixPath] *)

Module pathlib.

(** A parsed path: the root (["" ], ["/"] or ["//"]) and the components
    after it.  The drive is always empty on POSIX. *)
Record PurePath := { root : string; parts : list string }.

(** [_PosixFlavour.splitroot]: exactly two leading slashes are kept as the
    root ["//"], any other number collapses to ["/"]. *)
Definition splitroot (part : string) : string * string :=
  if PyStr.startswith "/" part then
    let stripped := PyStr.lstrip "/" part in
    if String.length part - String.length stripped =? 2
    then ("//", stripped) else ("/", stripped)
  else ("", part).

(** [if x and x != '.'] *)
Definition keep_part (x : string) : bool :=
  negb (String.eqb x "") && negb (String.eqb x ".").

(** [Path(s)] for one string argument ([parse_parts]). *)
Definition Path (s : string) : PurePath :=
  let '(r, rel) := splitroot s in
  {| root := r; parts := List.filter keep_part (PyStr.split "/" rel) |}.

(** [str(p)]: [_format_parsed_parts(...) or "."] *)
Definition str (p : PurePath) : string :=
  let s := root p +:+ PyStr.join "/" (parts p) in
  if String.eqb s "" then "." else s.

Definition is_absolute (p : PurePath) : bool := negb (String.eqb (root p) "").

(** [p.as_posix()]: [str(p)] with the separator replaced by ["/"], which is
    the separator already. *)
Definition as_posix (p : PurePath) : string := str p.

Fixpoint strip_prefix (pre l : list string) : option (list string) :=
  match pre, l with
  | [], _ => Some l
  | x :: pre', y :: l' => if String.eqb x y then strip_prefix pre' l' else None
  | _ :: _, [] => None
  end.

(** [self.relative_to(other)]: [None] stands for [ValueError], raised unless
    the anchors agree and [other]'s components lead [self]'s. *)
Definition relative_to (self other : PurePath) : option PurePath :=
  if String.eqb (root self) (root other) then
    match strip_prefix (parts other) (parts self) with
    | Some rest => Some {| root := ""; parts := rest |}
    | None => None
    end
  else None.

End pathlib.

(** ** Insertion-ordered dictionaries *)

Module PyDict.
Section dict.
Context {K V : Type} `{EqDecision K}.

Definition keys (d : list (K * V)) : list K := d.*1.
Definition values (d : list (K * V)) : list V := d.*2.

(** [k in d] *)
Definition contains (k : K) (d : list (K * V)) : bool := bool_decide (k ∈ d.*1).

(** [d.get(k)] *)
Fixpoint get (k : K) (d : list (K * V)) : option V :=
  match d with
  | [] => None
  | (k', v) :: d' => if decide (k' = k) then Some v else get k d'
  end.

(** [d[k] = v]: an existing key keeps its position, a new one goes last. *)
Fixpoint set (k : K) (v : V) (d : list (K * V)) : list (K * V) :=
  match d with
  | [] => [(k, v)]
  | (k', v') :: d' =>
      if decide (k' = k) then (k', v) :: d' else (k', v') :: set k v d'
  end.

Definition remove (k : K) (d : list (K * V)) : list (K * V) :=
  List.filter (λ kv, negb (bool_decide (kv.1 = k))) d.

(** [del d[k]]: [KeyError] when [k] is absent. *)
Definition delitem (k : K) (d : list (K * V)) : result (list (K * V)) :=
  if contains k d then Ok (remove k d) else Raise KeyError.

(** [d.pop(k)]: the value and the dictionary without [k]. *)
Definition pop (k : K) (d : list (K * V)) : result (V * list (K * V)) :=
  match get k d with
  | Some v => Ok (v, remove k d)
  | None => Raise KeyError
  end.

(** The keys of a dictionary are pairwise distinct. *)
Definition wf (d : list (K * V)) : Prop := NoDup d.*1.

End dict.
End PyDict.

(** ** [_file_management.py] *)

Module file_management.

(** [class MFFilePath]: a file path and the models that refer to it (the keys
    of [model_name], each mapped to [0]). *)
Record MFFilePath := {
  file_path : string;
  model_name : gmap string nat
}.

(** [MFFilePath.__init__] *)
Definition MFFilePath_init (file_path model_name : string) : MFFilePath :=
  {| file_path := file_path; model_name := {[ model_name := 0 ]} |}.

(** [MFFilePath.isabs] *)
Definition MFFilePath_isabs (f : MFFilePath) : bool :=
  posixpath.isabs (file_path f).

(** [class MFFileMgmt]: the attributes that [__init__] assigns.  [_sim_path]
    holds the string of the absolute path that [set_sim_path] stores;
    [_last_loaded_sim_path] is [None] until a snapshot is taken. *)
Record MFFileMgmt := {
  _sim_path : string;
  existing_file_dict : list (string * MFFilePath);
  model_relative_path : gmap string string;
  _last_loaded_sim_path : option string;
  _last_loaded_model_relative_path : gmap string string
}.

(** [MFFileMgmt.__init__] on a path that [set_sim_path] leaves as it is. *)
Definition MFFileMgmt_init (path : string) : MFFileMgmt :=
  {| _sim_path := path;
     existing_file_dict := [];
     model_relative_path := ∅;
     _last_loaded_sim_path := None;
     _last_loaded_model_relative_path := ∅ |}.

(** The argument of [resolve_path]: a string or an [MFFilePath]. *)
Inductive path_arg :=
| PathStr (s : string)
| PathFile (f : MFFilePath).

(** [get_sim_path] *)
Definition get_sim_path (self : MFFileMgmt) (last_loaded_path : bool)
  : option string :=
  if last_loaded_path then _last_loaded_sim_path self
  else Some (_sim_path self).

(** The first lines of [resolve_path]: the string of the argument with both
    quote characters removed (character 034 is the double quote). *)
Definition unquoted (path : path_arg) : string :=
  let file_path :=
    match path with
    | PathFile f => file_path f
    | PathStr s => s
    end in
  let file_path := PyStr.remove_char "'" file_path in
  PyStr.remove_char "034" file_path.

(** [resolve_path]: the value returned is a string or, when
    [move_abs_paths] sends an absolute path to a root that was never
    loaded, [None]. *)
Definition resolve_path (self : MFFileMgmt) (path : path_arg)
    (last_loaded_path move_abs_paths : bool) : result (option string) :=
  let file_path := unquoted path in
  if posixpath.isabs file_path then
    if move_abs_paths then Ok (get_sim_path self last_loaded_path)
    else Ok (Some file_path)
  else
    joined ← posixpath.join_opt (get_sim_path self last_loaded_path) file_path ;;;
    Ok (Some joined).

(** [get_model_path] *)
Definition get_model_path (self : MFFileMgmt) (key : string)
    (last_loaded_path : bool) : result string :=
  if last_loaded_path then
    match _last_loaded_model_relative_path self !! key with
    | None => Raise KeyError
    | Some rel => posixpath.join_opt (_last_loaded_sim_path self) rel
    end
  else
    match model_relative_path self !! key with
    | Some rel => Ok (posixpath.join (_sim_path self) rel)
    | None => Ok (_sim_path self)
    end.

(** [set_last_accessed_model_path]: every entry of [model_relative_path] is
    copied over the snapshot; entries only the snapshot has stay. *)
Definition set_last_accessed_model_path (self : MFFileMgmt) : MFFileMgmt :=
  {| _sim_path := _sim_path self;
     existing_file_dict := existing_file_dict self;
     model_relative_path := model_relative_path self;
     _last_loaded_sim_path := _last_loaded_sim_path self;
     _last_loaded_model_relative_path :=
       model_relative_path self ∪ _last_loaded_model_relative_path self |}.

(** [set_last_accessed_path] *)
Definition set_last_accessed_path (self : MFFileMgmt) : MFFileMgmt :=
  set_last_accessed_model_path
    {| _sim_path := _sim_path self;
       existing_file_dict := existing_file_dict self;
       model_relative_path := model_relative_path self;
       _last_loaded_sim_path := Some (_sim_path self);
       _last_loaded_model_relative_path := _last_loaded_model_relative_path self |}.

(** [add_ext_file] *)
Definition add_ext_file (self : MFFileMgmt) (path model : string) : MFFileMgmt :=
  let files :=
    match PyDict.get path (existing_file_dict self) with
    | Some f =>
        match model_name f !! model with
        | None =>
            PyDict.set path
              {| file_path := file_path f;
                 model_name := <[model := 0]> (model_name f) |}
              (existing_file_dict self)
        | Some _ => existing_file_dict self
        end
    | None =>
        PyDict.set path (MFFilePath_init path model) (existing_file_dict self)
    end in
  {| _sim_path := _sim_path self;
     existing_file_dict := files;
     model_relative_path := model_relative_path self;
     _last_loaded_sim_path := _last_loaded_sim_path self;
     _last_loaded_model_relative_path := _last_loaded_model_relative_path self |}.

(** A warning passed to [warnings.warn]; under the default filter the call
    records it and returns. *)
Inductive warning :=
| CouldNotStrip (path : string).

(** [strip_model_relative_path]: the string returned and the warnings
    emitted. *)
Definition strip_model_relative_path (self : MFFileMgmt)
    (model_name path : string) : string * list warning :=
  match model_relative_path self !! model_name with
  | None => (path, [])
  | Some rel =>
      let model_rel_path := pathlib.Path rel in
      if pathlib.is_absolute model_rel_path
         || String.eqb (pathlib.str model_rel_path) ""
         || String.eqb (pathlib.str model_rel_path) "."
      then (path, [])
      else
        match pathlib.relative_to (pathlib.Path path) model_rel_path with
        | Some ret_path => (pathlib.as_posix ret_path, [])
        | None => (pathlib.as_posix (pathlib.Path path), [CouldNotStrip path])
        end
  end.

(** [_build_file] *)
Definition _build_file (file_name : string) (num : nat) : string :=
  let '(file, ext) := posixpath.splitext file_name in
  if negb (String.eqb ext "") then file +:+ "_" +:+ pretty num +:+ ext
  else file +:+ "_" +:+ pretty num.

(** The [while] loop of [unique_file_name], run for at most [fuel] tests of
    its condition; [None] when the fuel runs out. *)
Fixpoint unique_file_name_from (fuel : nat) (file_name : string)
    (lookup : list string) (num : nat) : option string :=
  match fuel with
  | 0 => None
  | S fuel' =>
      if bool_decide (_build_file file_name num ∈ lookup)
      then unique_file_name_from fuel' file_name lookup (S num)
      else Some (_build_file file_name num)
  end.

(** [unique_file_name]: [num = 0] and the loop. *)
Definition unique_file_name (fuel : nat) (file_name : string)
    (lookup : list string) : option string :=
  unique_file_name_from fuel file_name lookup 0.

(** The file system as [copy_files] uses it.  [os_makedirs] and [copyfile]
    return the file system they leave behind and, when they raise, the
    message of the [OSError]. *)
Class FileSystem (World : Type) := {
  os_path_isfile : World → string → bool;
  os_path_exists : World → string → bool;
  os_makedirs : World → string → World * option string;
  copyfile : World → string → string → World * option string
}.

(** The names an instance of [MFFileMgmt] answers to: the attributes that
    [__init__] assigns and the methods of the class. *)
Definition instance_attributes : list string :=
  ["_sim_path"; "existing_file_dict"; "model_relative_path";
   "_last_loaded_sim_path"; "_last_loaded_model_relative_path"].

Definition class_attributes : list string :=
  ["copy_files"; "strip_model_relative_path"; "unique_file_name";
   "_build_file"; "set_last_accessed_path"; "set_last_accessed_model_path";
   "get_model_path"; "get_sim_path"; "add_ext_file"; "set_sim_path";
   "resolve_path"].

(** [self.<attr>]: [AttributeError] for any other name. *)
Definition getattr (attr : string) : result unit :=
  if bool_decide (attr ∈ instance_attributes ++ class_attributes)
  then Ok () else Raise (AttributeError "MFFileMgmt" attr).

(** The [except:] clause of [copy_files]:
    [raise MFDataException(self.structure.get_model(), ...)].  The arguments
    are evaluated from the left, [self.structure] first; the exception is
    built only if that read succeeds. *)
Definition copy_files_except (cause : string) : exn :=
  match getattr "structure" with
  | Raise e => e
  | Ok _ =>
      MFDataError
        {| exc_model := None;
           exc_package := None;
           exc_path := None;
           exc_current_process := Some "appending data";
           exc_data_element := None;
           exc_method_caught_in := Some "copy_files";
           exc_org_value := Some cause;
           exc_messages := [];
           exc_debug := false |}
  end.

Section copy_files.
Context {World : Type} `{FileSystem World}.

(** The body of the [for] loop of [copy_files], from the file system [w] and
    the count [num]. *)
Definition copy_files_body (self : MFFileMgmt) (copy_relative_only : bool)
    (mffile_path : MFFilePath) (w : World) (num : nat) : World * result nat :=
  match resolve_path self (PathFile mffile_path) true false with
  | Raise e => (w, Raise e)
  | Ok None => (w, Raise TypeError)
  | Ok (Some path_old) =>
      if os_path_isfile w path_old
         && (negb (MFFilePath_isabs mffile_path) || negb copy_relative_only)
      then
        match resolve_path self (PathFile mffile_path) false false with
        | Raise e => (w, Raise e)
        | Ok None => (w, Raise TypeError)
        | Ok (Some path_new) =>
            if negb (String.eqb path_old path_new) then
              let new_folders := (posixpath.split path_new).1 in
              let '(w1, failed) :=
                if negb (os_path_exists w new_folders)
                then os_makedirs w new_folders else (w, None) in
              match failed with
              | Some msg => (w1, Raise (OSError msg))
              | None =>
                  match copyfile w1 path_old path_new with
                  | (w2, Some cause) => (w2, Raise (copy_files_except cause))
                  | (w2, None) => (w2, Ok (S num))
                  end
              end
            else (w, Ok num)
        end
      else (w, Ok num)
  end.

Fixpoint copy_files_loop (self : MFFileMgmt) (copy_relative_only : bool)
    (files : list MFFilePath) (w : World) (num : nat) : World * result nat :=
  match files with
  | [] => (w, Ok num)
  | mffile_path :: rest =>
      match copy_files_body self copy_relative_only mffile_path w num with
      | (w', Ok num') => copy_files_loop self copy_relative_only rest w' num'
      | (w', Raise e) => (w', Raise e)
      end
  end.

(** [copy_files] *)
Definition copy_files (self : MFFileMgmt) (copy_relative_only : bool)
    (w : World) : World * result nat :=
  match _last_loaded_sim_path self with
  | Some _ =>
      copy_files_loop self copy_relative_only
        (PyDict.values (existing_file_dict self)) w 0
  | None => (w, Ok 0)
  end.

End copy_files.

End file_management.

(** ** [mfbase.py]: the package container *)

Module mfbase.

(** A component of a package path or of a key of [mfdata]: a string or an
    integer. *)
Inductive ident :=
| IStr (s : string)
| IInt (n : Z).

#[global] Instance ident_eq_dec : EqDecision ident.
Proof. solve_decision. Defined.

(** What the container reads of a package.  [oid] is the identity of the
    object: [package in packagelist] and [list.remove] compare packages
    with [==], which for these objects is identity. *)
Record MFPackage := {
  oid : nat;
  package_name : option string;
  filename : option string;
  package_type : string;
  path : list ident
}.

#[global] Instance MFPackage_eq_dec : EqDecision MFPackage.
Proof. solve_decision. Defined.

(** [class PackageContainer], with the dictionary [_simulation_data.mfdata]
    it keeps consistent; [V] is the type of the data stored there. *)
Record PackageContainer (V : Type) := {
  mfdata : list (list ident * V);
  packagelist : list MFPackage;
  package_type_dict : gmap string (list MFPackage);
  package_name_dict : gmap string MFPackage;
  package_filename_dict : gmap string MFPackage
}.
Arguments mfdata {V} _.
Arguments packagelist {V} _.
Arguments package_type_dict {V} _.
Arguments package_name_dict {V} _.
Arguments package_filename_dict {V} _.

(** [PackageContainer.__init__] over the store [data]. *)
Definition PackageContainer_init {V} (data : list (list ident * V))
  : PackageContainer V :=
  {| mfdata := data;
     packagelist := [];
     package_type_dict := ∅;
     package_name_dict := ∅;
     package_filename_dict := ∅ |}.

(** [add_package].  The last statement indexes [package_type_dict] at the
    lowered type and raises [KeyError] when no such bucket exists. *)
Definition add_package {V} (self : PackageContainer V) (package : MFPackage)
  : result (PackageContainer V) :=
  let packagelist' := packagelist self ++ [package] in
  let name_dict :=
    match package_name package with
    | Some n => <[PyStr.lower n := package]> (package_name_dict self)
    | None => package_name_dict self
    end in
  let filename_dict :=
    match filename package with
    | Some f => <[PyStr.lower f := package]> (package_filename_dict self)
    | None => package_filename_dict self
    end in
  let type_dict :=
    match package_type_dict self !! package_type package with
    | None => <[PyStr.lower (package_type package) := []]> (package_type_dict self)
    | Some _ => package_type_dict self
    end in
  match type_dict !! PyStr.lower (package_type package) with
  | None => Raise KeyError
  | Some bucket =>
      Ok {| mfdata := mfdata self;
            packagelist := packagelist';
            package_type_dict :=
              <[PyStr.lower (package_type package) := bucket ++ [package]]> type_dict;
            package_name_dict := name_dict;
            package_filename_dict := filename_dict |}
  end.

(** The invariant of the type index: every package of the list is in the
    bucket of its lowered type. *)
Definition indexed_by_type {V} (self : PackageContainer V) : Prop :=
  ∀ package, package ∈ packagelist self →
    ∃ bucket,
      package_type_dict self !! PyStr.lower (package_type package) = Some bucket
      ∧ package ∈ bucket.

(** [l.remove(x)]: the first occurrence goes; the callers test [x in l]
    first. *)
Fixpoint remove_first {A} `{EqDecision A} (x : A) (l : list A) : list A :=
  match l with
  | [] => []
  | y :: l' => if decide (y = x) then l' else y :: remove_first x l'
  end.

(** The inner loop of [remove_package] and [_rename_package]:
    [for pitem, ditem in zip(package.path, key)] with [is_subkey] cleared at
    the first pair that differs. *)
Fixpoint is_subkey (path key : list ident) : bool :=
  match path, key with
  | pitem :: path', ditem :: key' =>
      if decide (pitem = ditem) then is_subkey path' key' else false
  | _, _ => true
  end.

(** The store's notion of a key owned by a package, in the words of its
    interface: positional equality over the shorter of the two sequences. *)
Definition prefix_match (path key : list ident) : Prop :=
  ∀ i, i < length path `min` length key → path !! i = key !! i.

(** [for key in keys: del d[key]] *)
Fixpoint delete_keys {V} (keys : list (list ident)) (d : list (list ident * V))
  : result (list (list ident * V)) :=
  match keys with
  | [] => Ok d
  | key :: keys' => d' ← PyDict.delitem key d ;;; delete_keys keys' d'
  end.

(** [remove_package] *)
Definition remove_package {V} (self : PackageContainer V) (package : MFPackage)
  : result (PackageContainer V) :=
  let packagelist' :=
    if bool_decide (package ∈ packagelist self)
    then remove_first package (packagelist self) else packagelist self in
  let name_dict :=
    match package_name package with
    | Some n =>
        if bool_decide (is_Some (package_name_dict self !! PyStr.lower n))
        then delete (PyStr.lower n) (package_name_dict self)
        else package_name_dict self
    | None => package_name_dict self
    end in
  let filename_dict :=
    match filename package with
    | Some f =>
        if bool_decide (is_Some (package_filename_dict self !! PyStr.lower f))
        then delete (PyStr.lower f) (package_filename_dict self)
        else package_filename_dict self
    | None => package_filename_dict self
    end in
  let type_dict :=
    match package_type_dict self !! PyStr.lower (package_type package) with
    | Some package_list =>
        let package_list' :=
          if bool_decide (package ∈ package_list)
          then remove_first package package_list else package_list in
        if length package_list' =? 0
        then delete (PyStr.lower (package_type package)) (package_type_dict self)
        else <[PyStr.lower (package_type package) := package_list']>
               (package_type_dict self)
    | None => package_type_dict self
    end in
  let items_to_remove :=
    List.filter (is_subkey (path package)) (PyDict.keys (mfdata self)) in
  data ← delete_keys items_to_remove (mfdata self) ;;;
  Ok {| mfdata := data;
        packagelist := packagelist';
        package_type_dict := type_dict;
        package_name_dict := name_dict;
        package_filename_dict := filename_dict |}.

(** [l[:-1]] *)
Definition but_last {A} (l : list A) : list A := take (length l - 1) l.

(** [l[i:]] for an integer [i]; a negative [i] counts from the end. *)
Definition slice_from {A} (i : Z) (l : list A) : list A :=
  if (i <? 0)%Z then drop (Z.to_nat (Z.of_nat (length l) + i)) l
  else drop (Z.to_nat i) l.

(** [package.path[:-1] + (new_name,) + key[len(package.path) - 1:]] *)
Definition renamed_key (path : list ident) (new_name : string)
    (key : list ident) : list ident :=
  but_last path ++ [IStr new_name] ++ slice_from (Z.of_nat (length path) - 1) key.

(** [for key in items_to_fix: main_dict[new_key] = main_dict.pop(key)] *)
Fixpoint fix_keys {V} (path : list ident) (new_name : string)
    (items_to_fix : list (list ident)) (main_dict : list (list ident * V))
  : result (list (list ident * V)) :=
  match items_to_fix with
  | [] => Ok main_dict
  | key :: rest =>
      popped ← PyDict.pop key main_dict ;;;
      fix_keys path new_name rest
        (PyDict.set (renamed_key path new_name key) popped.1 popped.2)
  end.

(** [_rename_package] *)
Definition _rename_package {V} (self : PackageContainer V)
    (package : MFPackage) (new_name : string) : result (PackageContainer V) :=
  let name_dict :=
    match package_name package with
    | Some n =>
        if bool_decide (is_Some (package_name_dict self !! PyStr.lower n))
        then delete (PyStr.lower n) (package_name_dict self)
        else package_name_dict self
    | None => package_name_dict self
    end in
  let name_dict := <[PyStr.lower new_name := package]> name_dict in
  let items_to_fix :=
    List.filter (is_subkey (path package)) (PyDict.keys (mfdata self)) in
  data ← fix_keys (path package) new_name items_to_fix (mfdata self) ;;;
  Ok {| mfdata := data;
        packagelist := packagelist self;
        package_type_dict := package_type_dict self;
        package_name_dict := name_dict;
        package_filename_dict := package_filename_dict self |}.

(** The test of one key of [pkg_list] in [_in_pkg_list]: equal numbers of
    segments and, pair by pair, the key's segment equal to the query's
    segment or to the query's segment without its last character. *)
Definition key_matches (pkg_type : list string) (key : string) : bool :=
  let key := PyStr.split "-" key in
  (length key =? length pkg_type)
  && forallb (λ kp : string * string,
                let '(key_item, pkg_item) := kp in
                negb (negb (String.eqb (PyStr.drop_last pkg_item) key_item)
                      && negb (String.eqb pkg_item key_item)))
             (zip key pkg_type).

(** [_in_pkg_list]; [pkg_type] and [pkg_name] may be [None]. *)
Definition _in_pkg_list (pkg_list : list (string * bool))
    (pkg_type pkg_name : option string) : result bool :=
  let pkg_type := PyStr.lower <$> pkg_type in
  let pkg_name := PyStr.lower <$> pkg_name in
  let is_key (k : option string) : bool :=
    match k with
    | Some k => PyDict.contains k pkg_list
    | None => false
    end in
  if is_key pkg_type || is_key pkg_name then Ok true
  else
    match pkg_type with
    | None => Raise (AttributeError "NoneType" "split")
    | Some pkg_type =>
        let pkg_type := PyStr.split "-" pkg_type in
        match pkg_type with
        | [] => Raise IndexError
        | first :: _ =>
            match PyStr.last_char first with
            | None => Raise IndexError
            | Some c =>
                match PyStr.int_of_char c with
                | Some _ => Ok (existsb (key_matches pkg_type) (PyDict.keys pkg_list))
                | None => Ok false
                end
            end
        end
    end.

(** What [get_package] returns: [None], one package, or a list of
    packages. *)
Inductive found :=
| NotFound
| FoundPackage (package : MFPackage)
| FoundList (packages : list MFPackage).

(** The last loop of [get_package]: the first named package whose lowered
    name, cut to the length of [name], equals the lowered [name]. *)
Fixpoint find_partial (name : string) (packages : list MFPackage) : found :=
  match packages with
  | [] => NotFound
  | pp :: rest =>
      match package_name pp with
      | Some n =>
          let package_name := PyStr.lower n in
          let package_name :=
            if String.length name <? String.length package_name
            then PyStr.take (String.length name) package_name
            else package_name in
          if String.eqb (PyStr.lower package_name) (PyStr.lower name)
          then FoundPackage pp else find_partial name rest
      | None => find_partial name rest
      end
  end.

(** [get_package] *)
Definition get_package {V} (self : PackageContainer V) (name : option string)
    (type_only name_only : bool) : found :=
  match name with
  | None => FoundList (packagelist self)
  | Some name =>
      match package_name_dict self !! PyStr.lower name, type_only with
      | Some package, false => FoundPackage package
      | _, _ =>
          match package_type_dict self !! PyStr.lower name, name_only with
          | Some bucket, false =>
              match bucket with
              | [] => NotFound
              | [package] => FoundPackage package
              | _ => FoundList bucket
              end
          | _, _ =>
              match package_filename_dict self !! PyStr.lower name, type_only with
              | Some package, false => FoundPackage package
              | _, _ =>
                  if negb type_only then find_partial name (packagelist self)
                  else NotFound
              end
          end
      end
  end.

(** The argument of [_load_only_dict]: [None], a dictionary, a value that
    is not iterable (with its [str]), or an iterable of strings. *)
Inductive load_only_arg :=
| LoadNone
| LoadDict (d : list (string * bool))
| LoadNotIterable (shown : string)
| LoadItems (items : list string).

(** [_load_only_dict]: on the left the message of the [FlopyException]
    raised, on the right the value returned (character 034 is the double
    quote). *)
Definition _load_only_dict (load_only : load_only_arg)
  : string + option (list (string * bool)) :=
  match load_only with
  | LoadNone => inr None
  | LoadDict d => inr (Some d)
  | LoadNotIterable shown =>
      inl ("load_only must be iterable or None. load_only value of "
           +:+ String "034" (shown +:+ String "034" " is invalid"))
  | LoadItems items =>
      inr (Some (foldl (λ load_only_dict item,
                          PyDict.set (PyStr.lower item) true load_only_dict)
                       [] items))
  end.

(** Every key of the three indexes is in lower case. *)
Definition lower_keys {V} (self : PackageContainer V) : Prop :=
  (∀ k, is_Some (package_type_dict self !! k) → PyStr.lower k = k)
  ∧ (∀ k, is_Some (package_name_dict self !! k) → PyStr.lower k = k)
  ∧ (∀ k, is_Some (package_filename_dict self !! k) → PyStr.lower k = k).

End mfbase.

(** ** Concrete simulations used in the examples *)

Module examples.
Import file_management mfbase.

(** A store with the data of two packages of model ["gwf1"] and of one of
    model ["gwf2"]. *)
Definition example_store : list (list ident * string) :=
  [([IStr "gwf1"; IStr "wel"; IStr "WEL-1"; IStr "period"; IInt 1], "wells");
   ([IStr "gwf1"; IStr "riv"; IStr "RIV-1"; IStr "period"; IInt 1], "reaches");
   ([IStr "gwf2"; IStr "wel"; IStr "WEL-1"; IStr "period"; IInt 1], "others")].

Definition example_wel : MFPackage :=
  {| oid := 1; package_name := Some "WEL-1"; filename := Some "gwf1.wel";
     package_type := "wel";
     path := [IStr "gwf1"; IStr "wel"; IStr "WEL-1"] |}.

(** A file system for examples: the files and directories that exist, and
    the destinations that cannot be written. *)
Record disk := {
  disk_files : list string;
  disk_dirs : list string;
  disk_denied : list string
}.

#[global] Instance disk_fs : FileSystem disk := {|
  os_path_isfile w p := bool_decide (p ∈ disk_files w);
  os_path_exists w p :=
    bool_decide (p ∈ disk_files w) || bool_decide (p ∈ disk_dirs w);
  os_makedirs w p :=
    ({| disk_files := disk_files w;
        disk_dirs := p :: disk_dirs w;
        disk_denied := disk_denied w |}, None);
  copyfile w src dst :=
    if bool_decide (dst ∈ disk_denied w) then (w, Some "Permission denied")
    else ({| disk_files := dst :: disk_files w;
             disk_dirs := disk_dirs w;
             disk_denied := disk_denied w |}, None)
|}.

(** A simulation loaded from ["/old"] with three external files of model
    ["gwf1"], then moved to ["/new"]. *)
Definition moved_simulation : MFFileMgmt :=
  let loaded :=
    set_last_accessed_path
      (add_ext_file
         (add_ext_file
            (add_ext_file (MFFileMgmt_init "/old") "a.dat" "gwf1")
            "b.dat" "gwf1")
         "c.dat" "gwf1") in
  {| _sim_path := "/new";
     existing_file_dict := existing_file_dict loaded;
     model_relative_path := model_relative_path loaded;
     _last_loaded_sim_path := _last_loaded_sim_path loaded;
     _last_loaded_model_relative_path := _last_loaded_model_relative_path loaded |}.

Definition moved_disk : disk :=
  {| disk_files := ["/old/a.dat"; "/old/b.dat"; "/old/c.dat"];
     disk_dirs := ["/old"; "/new"];
     disk_denied := ["/new/b.dat"] |}.

(** A simulation at ["/sim"] whose model ["gwf1"] lives under
    ["models/gwf1"] and whose model ["gwf2"] lives in the root. *)
Definition two_models : MFFileMgmt :=
  {| _sim_path := "/sim";
     existing_file_dict := [];
     model_relative_path := {[ "gwf1" := "models/gwf1"; "gwf2" := "." ]};
     _last_loaded_sim_path := None;
     _last_loaded_model_relative_path := ∅ |}.

(** A second package of type ["wel"], named like [example_wel] up to
    letter case, and the container left by adding [example_wel] and then
    this one to a new container over [example_store]: the later package
    holds the name. *)
Definition other_wel : MFPackage :=
  {| oid := 2; package_name := Some "wel-1"; filename := Some "gwf1_b.wel";
     package_type := "wel";
     path := [IStr "gwf1"; IStr "wel"; IStr "wel-1"] |}.

Definition two_wells : PackageContainer string :=
  {| mfdata := example_store;
     packagelist := [example_wel; other_wel];
     package_type_dict := {[ "wel" := [example_wel; other_wel] ]};
     package_name_dict := {[ "wel-1" := other_wel ]};
     package_filename_dict :=
       {[ "gwf1.wel" := example_wel; "gwf1_b.wel" := other_wel ]} |}.

End examples.

(** * Properties *)

Import file_management mfbase examples.

(** ** The string and path functions on sample inputs *)

Example lower_mixed : PyStr.lower "Wel-1A" = "wel-1a".
Proof. reflexivity. Qed.

Example split_compound :
  PyStr.split "-" "gwf6-gwf6" = ["gwf6"; "gwf6"] ∧ PyStr.split "-" "" = [""].
Proof. split; reflexivity. Qed.

Example rfind_last :
  PyStr.rfind "." "a.b.c" = 3%Z ∧ PyStr.rfind "/" "a.b.c" = (-1)%Z.
Proof. split; reflexivity. Qed.

Example posixpath_join :
  posixpath.join "/sim" "ext/a.dat" = "/sim/ext/a.dat"
  ∧ posixpath.join "/sim/" "a.dat" = "/sim/a.dat"
  ∧ posixpath.join "/sim" "/abs/a.dat" = "/abs/a.dat"
  ∧ posixpath.join "" "a.dat" = "a.dat".
Proof. split_and!; reflexivity. Qed.

Example posixpath_split :
  posixpath.split "/new/ext/a.dat" = ("/new/ext", "a.dat")
  ∧ posixpath.split "a.dat" = ("", "a.dat")
  ∧ posixpath.split "/a.dat" = ("/", "a.dat")
  ∧ posixpath.split "ext//a.dat" = ("ext", "a.dat").
Proof. split_and!; reflexivity. Qed.

Example posixpath_splitext :
  posixpath.splitext "out/head.txt" = ("out/head", ".txt")
  ∧ posixpath.splitext "x.tar.gz" = ("x.tar", ".gz")
  ∧ posixpath.splitext ".bashrc" = (".bashrc", "")
  ∧ posixpath.splitext "out.d/head" = ("out.d/head", "").
Proof. split_and!; reflexivity. Qed.

Example pathlib_str :
  pathlib.str (pathlib.Path "a//b/./c/") = "a/b/c"
  ∧ pathlib.str (pathlib.Path "") = "."
  ∧ pathlib.str (pathlib.Path "./") = "."
  ∧ pathlib.str (pathlib.Path "//a") = "//a"
  ∧ pathlib.str (pathlib.Path "///a") = "/a"
  ∧ pathlib.str (pathlib.Path "a/../b") = "a/../b".
Proof. split_and!; reflexivity. Qed.

Example pathlib_relative_to :
  pathlib.relative_to (pathlib.Path "models/gwf1/in/wel.dat") (pathlib.Path "models/gwf1")
    = Some (pathlib.Path "in/wel.dat")
  ∧ pathlib.relative_to (pathlib.Path "models/gwf1") (pathlib.Path "models/gwf1")
    = Some (pathlib.Path ".")
  ∧ pathlib.relative_to (pathlib.Path "models/gwf10/in") (pathlib.Path "models/gwf1")
    = None
  ∧ pathlib.relative_to (pathlib.Path "/models/gwf1/in") (pathlib.Path "models/gwf1")
    = None.
Proof. split_and!; reflexivity. Qed.

(** ** Strings *)

Lemma str_app_cons (a : ascii) (s t : string) :
  String a s +:+ t = String a (s +:+ t).
Proof. reflexivity. Qed.

Lemma str_app_nil_l (t : string) : "" +:+ t = t.
Proof. reflexivity. Qed.

Lemma str_app_nil_r (s : string) : s +:+ "" = s.
Proof.
  induction s as [|a s IH]; [done|]. by rewrite str_app_cons, IH.
Qed.

Lemma str_app_assoc (s t u : string) : (s +:+ t) +:+ u = s +:+ t +:+ u.
Proof.
  induction s as [|a s IH]; [done|]. by rewrite !str_app_cons, IH.
Qed.

Lemma str_app_length (s t : string) :
  String.length (s +:+ t) = String.length s + String.length t.
Proof.
  induction s as [|a s IH]; [done|]. rewrite str_app_cons; simpl. by rewrite IH.
Qed.

Lemma str_app_inj_r (s1 s2 t : string) : s1 +:+ t = s2 +:+ t → s1 = s2.
Proof.
  revert s2; induction s1 as [|a s1 IH]; intros [|b s2] Heq;
    rewrite ?str_app_cons, ?str_app_nil_l in Heq.
  - done.
  - apply (f_equal String.length) in Heq; simpl in Heq.
    rewrite str_app_length in Heq; lia.
  - apply (f_equal String.length) in Heq; simpl in Heq.
    rewrite str_app_length in Heq; lia.
  - injection Heq as -> Heq. f_equal. by apply IH.
Qed.

Lemma take_drop_str (n : nat) (s : string) : PyStr.take n s +:+ PyStr.drop n s = s.
Proof.
  revert s; induction n as [|n IH]; intros [|a s]; simpl; try done.
  by rewrite str_app_cons, IH.
Qed.

Lemma has_char_app (c : ascii) (s t : string) :
  PyStr.has_char c (s +:+ t) = PyStr.has_char c s || PyStr.has_char c t.
Proof.
  induction s as [|a s IH]; [done|].
  rewrite str_app_cons. simpl. by rewrite IH, orb_assoc.
Qed.

Lemma take_app_str (s t : string) : PyStr.take (String.length s) (s +:+ t) = s.
Proof.
  induction s as [|a s IH]; [by destruct t|].
  rewrite str_app_cons. simpl. by rewrite IH.
Qed.

(** ** [os.path.splitext] and [_build_file] *)

Lemma splitext_app (p : string) :
  (posixpath.splitext p).1 +:+ (posixpath.splitext p).2 = p.
Proof.
  unfold posixpath.splitext.
  destruct (_ <? _)%Z; simpl; [|apply str_app_nil_r].
  destruct (negb _); simpl; [apply take_drop_str | apply str_app_nil_r].
Qed.

Lemma build_file_eq (file_name : string) (num : nat) :
  _build_file file_name num =
    (posixpath.splitext file_name).1 +:+ "_" +:+ pretty num
      +:+ (posixpath.splitext file_name).2.
Proof.
  unfold _build_file. destruct (posixpath.splitext file_name) as [file ext]; simpl.
  destruct (String.eqb_spec ext "") as [->|_]; simpl; [|done].
  by rewrite str_app_nil_r.
Qed.

#[global] Instance build_file_inj (file_name : string) : Inj (=) (=) (_build_file file_name).
Proof.
  intros n m Heq. rewrite !build_file_eq in Heq.
  apply (inj (String.app _)) in Heq.
  change ("_" +:+ ?x) with (String "_" x) in Heq.
  injection Heq as Heq. apply str_app_inj_r in Heq.
  by apply (inj pretty).
Qed.

(** ** [unique_file_name] *)

Section unique_file_name.
Variables (file_name : string) (lookup : list string).

(** Some name among the first [length lookup + 1] candidates is free. *)
Lemma free_name_exists :
  ∃ n, n ≤ length lookup ∧ _build_file file_name n ∉ lookup.
Proof.
  destruct (decide (Forall (λ n, _build_file file_name n ∈ lookup)
                      (seq 0 (S (length lookup))))) as [Hall|Hex].
  - exfalso.
    assert (Hsub : _build_file file_name <$> seq 0 (S (length lookup)) ⊆+ lookup).
    { apply NoDup_submseteq.
      - apply NoDup_fmap_2; [apply _ | apply NoDup_seq].
      - intros x (n & -> & Hn)%list_elem_of_fmap.
        rewrite Forall_forall in Hall. by apply Hall. }
    apply submseteq_length in Hsub.
    rewrite length_fmap, length_seq in Hsub. lia.
  - apply not_Forall_Exists in Hex; [|apply _].
    apply Exists_exists in Hex as (n & Hn & Hfree).
    apply elem_of_seq in Hn. exists n. split; [lia | done].
Qed.

(** The loop started at [num] stops at the first free candidate from [num]
    on, given fuel for the tests up to it. *)
Lemma unique_file_name_from_first (n : nat) :
  _build_file file_name n ∉ lookup →
  ∀ fuel num,
    num ≤ n → n - num < fuel →
    (∀ m, num ≤ m < n → _build_file file_name m ∈ lookup) →
    unique_file_name_from fuel file_name lookup num = Some (_build_file file_name n).
Proof.
  intros Hfree fuel. induction fuel as [|fuel IH]; intros num Hle Hfuel Hbelow.
  - lia.
  - simpl. case_bool_decide as Hin.
    + assert (num ≠ n) by (intros ->; done).
      apply IH; [lia | lia |]. intros m Hm. apply Hbelow. lia.
    + destruct (decide (num = n)) as [->|Hne]; [done|].
      exfalso. apply Hin, Hbelow. lia.
Qed.

(** The least free candidate. *)
Lemma least_free_name :
  ∃ n, n ≤ length lookup ∧ (_build_file file_name n ∉ lookup)
       ∧ (∀ m, m < n → _build_file file_name m ∈ lookup).
Proof.
  destruct free_name_exists as (n0 & Hn0 & Hfree0).
  revert Hn0 Hfree0. induction (lt_wf n0) as [n0 _ IH]; intros Hn0 Hfree0.
  destruct (decide (Forall (λ m, _build_file file_name m ∈ lookup) (seq 0 n0)))
    as [Hall|Hex].
  - exists n0. split_and!; [done..|].
    intros m Hm. rewrite Forall_forall in Hall. apply Hall, elem_of_seq. lia.
  - apply not_Forall_Exists in Hex; [|apply _].
    apply Exists_exists in Hex as (m & Hm & Hfree).
    apply elem_of_seq in Hm. apply (IH m); [lia | lia | done].
Qed.

End unique_file_name.

(** ** The extension that [os.path.splitext] splits off *)

Lemma drop_app_str (s t : string) : PyStr.drop (String.length s) (s +:+ t) = t.
Proof.
  induction s as [|a s IH]; [by destruct t|]. by rewrite str_app_cons.
Qed.

Lemma str_app_eq_split (a x d y : string) :
  a +:+ x = d +:+ y → String.length d ≤ String.length a →
  ∃ m, a = d +:+ m ∧ y = m +:+ x.
Proof.
  revert a. induction d as [|c d IH]; intros a Heq Hlen.
  - exists a. by rewrite str_app_nil_l in *.
  - destruct a as [|c' a]; simpl in Hlen; [lia|].
    rewrite !str_app_cons in Heq. injection Heq as -> Heq.
    destruct (IH a Heq ltac:(lia)) as (m & -> & ->).
    exists m. by rewrite str_app_cons.
Qed.

Lemma rfind_from_spec (c : ascii) (s : string) (i : nat) (found : Z) :
  (PyStr.has_char c s = false ∧ PyStr.rfind_from c s i found = found)
  ∨ (∃ a b, s = a +:+ String c b ∧ PyStr.has_char c b = false
            ∧ PyStr.rfind_from c s i found = Z.of_nat (i + String.length a)).
Proof.
  revert i found. induction s as [|x s IH]; intros i found; simpl; [by left|].
  destruct (IH (S i) (if Ascii.eqb x c then Z.of_nat i else found))
    as [[Hno Hr]|(a & b & -> & Hb & Hr)].
  - destruct (Ascii.eqb x c) eqn:Hxc.
    + right. apply Ascii.eqb_eq in Hxc as ->. exists "", s.
      rewrite Hr. split_and!; [done | done | f_equal; simpl; lia].
    + left. by rewrite Hno.
  - right. exists (String x a), b. rewrite str_app_cons.
    split_and!; [done | done |]. rewrite Hr. simpl. f_equal. lia.
Qed.

(** [s.rfind(c)] is [-1] when [c] does not occur and otherwise the length of
    what stands before the last [c]. *)
Lemma rfind_spec (c : ascii) (s : string) :
  (PyStr.has_char c s = false ∧ PyStr.rfind c s = (-1)%Z)
  ∨ (∃ a b, s = a +:+ String c b ∧ PyStr.has_char c b = false
            ∧ PyStr.rfind c s = Z.of_nat (String.length a)).
Proof. apply (rfind_from_spec c s 0 (-1)%Z). Qed.

Lemma all_char_snoc (c : ascii) (s : string) :
  PyStr.all_char c s = true → PyStr.all_char c (s +:+ String c "") = true.
Proof.
  unfold PyStr.all_char. induction s as [|x s IH].
  - intros _. rewrite str_app_nil_l. simpl. by rewrite Ascii.eqb_refl.
  - rewrite str_app_cons. simpl. destruct (Ascii.eqb x c); [apply IH | done].
Qed.

Lemma endswith_snoc (c : ascii) (s : string) :
  PyStr.endswith c (s +:+ String c "") = true.
Proof.
  induction s as [|x s IH].
  - rewrite str_app_nil_l. simpl. apply Ascii.eqb_refl.
  - rewrite str_app_cons. simpl. rewrite IH.
    by destruct (s +:+ String c "") eqn:Hs; [destruct s|].
Qed.

(** What [os.path.splitext] returns, without reference to indices.  Either
    the name is a directory part, a stem that has no slash and is not made
    of dots only, a dot and a tail without dot or slash, and then the tail
    with its dot is the extension; or its last component is some dots
    followed by a part without dot, and then there is no extension. *)
Lemma splitext_extension (p : string) :
  (∃ dir stem e,
     p = dir +:+ stem +:+ String "." e
     ∧ (dir = "" ∨ PyStr.endswith "/" dir = true)
     ∧ PyStr.has_char "/" stem = false
     ∧ PyStr.all_char "." stem = false
     ∧ PyStr.has_char "." e = false
     ∧ PyStr.has_char "/" e = false
     ∧ posixpath.splitext p = (dir +:+ stem, String "." e))
  ∨ (∃ dir dots rest,
       p = dir +:+ dots +:+ rest
       ∧ (dir = "" ∨ PyStr.endswith "/" dir = true)
       ∧ PyStr.all_char "." dots = true
       ∧ PyStr.has_char "." rest = false
       ∧ PyStr.has_char "/" rest = false
       ∧ posixpath.splitext p = (p, "")).
Proof.
  unfold posixpath.splitext.
  destruct (rfind_spec "." p) as [[Hnodot ->]|(a & e & Hp & He & ->)].
  - (* no dot at all *)
    right. destruct (rfind_spec "/" p) as [[Hnosep ->]|(d & b & -> & Hb & ->)].
    + exists "", "", p. by split_and!; [| left | ..].
    + exists (d +:+ String "/" ""), "", b.
      rewrite has_char_app in Hnodot. apply orb_false_elim in Hnodot as [_ Hnodot].
      simpl in Hnodot. split_and!; try done.
      * by rewrite str_app_assoc.
      * right. apply endswith_snoc.
      * by destruct (_ <? _)%Z eqn:Hlt; [apply Z.ltb_lt in Hlt; lia|].
  - destruct (rfind_spec "/" p) as [[Hnosep ->]|(d & b & Hp' & Hb & ->)].
    + (* a dot and no slash *)
      subst p. rewrite has_char_app in Hnosep.
      apply orb_false_elim in Hnosep as [Ha He']. simpl in He'.
      change (-1 + 1)%Z with 0%Z. change (Z.to_nat 0) with 0.
      rewrite (proj2 (Z.ltb_lt _ _)) by lia.
      rewrite Nat2Z.id, Nat.sub_0_r. change (PyStr.drop 0 ?s) with s.
      rewrite take_app_str, drop_app_str.
      destruct (PyStr.all_char "." a) eqn:Hdots; simpl.
      * right. exists "", (a +:+ String "." ""), e.
        split_and!; [by rewrite str_app_assoc | by left | by apply all_char_snoc
                    | done | done | done].
      * left. exists "", a, e. by split_and!; [| left | ..].
    + destruct (Z.ltb_spec (Z.of_nat (String.length d)) (Z.of_nat (String.length a)))
        as [Hlt|Hge].
      * (* the last dot stands after the last slash *)
        rewrite Hp in Hp'.
        destruct (str_app_eq_split a (String "." e) d (String "/" b) Hp' ltac:(lia))
          as (m & -> & Hm).
        destruct m as [|x stem]; [done|].
        rewrite str_app_cons in Hm. injection Hm as <- ->.
        rewrite has_char_app in Hb. apply orb_false_elim in Hb as [Hstem He'].
        simpl in He'.
        assert (p = (d +:+ String "/" "") +:+ stem +:+ String "." e) as Hdir.
        { rewrite Hp. by rewrite !str_app_assoc. }
        assert (String.length (d +:+ String "/" stem)
                = String.length (d +:+ String "/" "") + String.length stem) as Hlen.
        { rewrite !str_app_length. simpl. lia. }
        assert (Z.to_nat (Z.of_nat (String.length d) + 1)
                = String.length (d +:+ String "/" "")) as ->.
        { rewrite str_app_length. simpl. lia. }
        rewrite Nat2Z.id, Hlen.
        replace (String.length (d +:+ String "/" "") + String.length stem
                 - String.length (d +:+ String "/" "")) with (String.length stem) by lia.
        assert (PyStr.take (String.length stem)
                  (PyStr.drop (String.length (d +:+ String "/" "")) p) = stem) as ->.
        { by rewrite Hdir, drop_app_str, take_app_str. }
        replace (String.length (d +:+ String "/" "") + String.length stem)
          with (String.length ((d +:+ String "/" "") +:+ stem))
          by (by rewrite str_app_length).
        assert (PyStr.take (String.length ((d +:+ String "/" "") +:+ stem)) p
                = (d +:+ String "/" "") +:+ stem) as ->.
        { by rewrite Hdir, <- str_app_assoc, take_app_str. }
        assert (PyStr.drop (String.length ((d +:+ String "/" "") +:+ stem)) p
                = String "." e) as ->.
        { by rewrite Hdir, <- str_app_assoc, drop_app_str. }
        destruct (PyStr.all_char "." stem) eqn:Hdots; simpl.
        -- right. exists (d +:+ String "/" ""), (stem +:+ String "." ""), e.
           split_and!; [by rewrite Hdir, !str_app_assoc | right; apply endswith_snoc
                       | by apply all_char_snoc | done | done | done].
        -- left. exists (d +:+ String "/" ""), stem, e.
           split_and!; [done | right; apply endswith_snoc
                       | done | done | done | done | done].
      * (* the last dot stands before the last slash *)
        right. rewrite Hp' in Hp.
        destruct (str_app_eq_split d (String "/" b) a (String "." e) Hp ltac:(lia))
          as (m & -> & Hm).
        destruct m as [|x m]; [done|].
        rewrite str_app_cons in Hm. injection Hm as <- ->.
        rewrite has_char_app in He. apply orb_false_elim in He as [_ He].
        simpl in He.
        exists ((a +:+ String "." m) +:+ String "/" ""), "", b.
        split_and!; [by rewrite Hp', !str_app_assoc | right; apply endswith_snoc
                    | done | done | done | done].
Qed.

(** C10. For every file name and every finite lookup, [unique_file_name]
    returns (given fuel for more tests than the lookup has entries) the file
    name with ["_n"] put before its extension, or at its end when it has
    none, where [n] is the least natural number whose candidate is not in
    the lookup; the name returned is not in the lookup.  The extension is
    the part from the last dot of the last component on, when a character
    other than a dot stands before that dot in the component. *)
Theorem unique_file_name_least_free (file_name : string) (lookup : list string) :
  ∃ (n : nat) (file ext : string),
    posixpath.splitext file_name = (file, ext)
    ∧ file +:+ ext = file_name
    ∧ ((∃ dir stem e,
          file_name = dir +:+ stem +:+ String "." e
          ∧ (dir = "" ∨ PyStr.endswith "/" dir = true)
          ∧ PyStr.has_char "/" stem = false
          ∧ PyStr.all_char "." stem = false
          ∧ PyStr.has_char "." e = false
          ∧ PyStr.has_char "/" e = false
          ∧ file = dir +:+ stem
          ∧ ext = String "." e)
       ∨ (∃ dir dots rest,
            file_name = dir +:+ dots +:+ rest
            ∧ (dir = "" ∨ PyStr.endswith "/" dir = true)
            ∧ PyStr.all_char "." dots = true
            ∧ PyStr.has_char "." rest = false
            ∧ PyStr.has_char "/" rest = false
            ∧ file = file_name
            ∧ ext = ""))
    ∧ _build_file file_name n = file +:+ "_" +:+ pretty n +:+ ext
    ∧ (∀ fuel, length lookup < fuel →
         unique_file_name fuel file_name lookup = Some (_build_file file_name n))
    ∧ (_build_file file_name n ∉ lookup)
    ∧ (∀ m, m < n → _build_file file_name m ∈ lookup).
Proof.
  destruct (least_free_name file_name lookup) as (n & Hn & Hfree & Hleast).
  exists n, (posixpath.splitext file_name).1, (posixpath.splitext file_name).2.
  split_and!.
  - by destruct (posixpath.splitext file_name).
  - apply splitext_app.
  - destruct (splitext_extension file_name)
      as [(dir & stem & e & Hname & Hdir & Hstem & Hdots & He & He' & ->)
         |(dir & dots & rest & Hname & Hdir & Hdots & Hrest & Hrest' & ->)].
    + left. exists dir, stem, e. by split_and!.
    + right. exists dir, dots, rest. by split_and!.
  - apply build_file_eq.
  - intros fuel Hfuel. unfold unique_file_name.
    apply unique_file_name_from_first; [done | lia | lia |].
    intros m Hm. apply Hleast. lia.
  - done.
  - done.
Qed.

Lemma unique_file_name_least_free_witness :
  unique_file_name 3 "out.d/head.txt" ["out.d/head_0.txt"; "out.d/head_1.txt"]
  = Some "out.d/head_2.txt".
Proof.
  destruct (unique_file_name_least_free "out.d/head.txt"
              ["out.d/head_0.txt"; "out.d/head_1.txt"])
    as (n & file & ext & _ & _ & _ & _ & Hrun & Hfree & Hleast).
  rewrite (Hrun 3) by (simpl; lia). f_equal.
  destruct n as [|[|[|n]]].
  - destruct Hfree. apply list_elem_of_here.
  - destruct Hfree. apply list_elem_of_further, list_elem_of_here.
  - reflexivity.
  - specialize (Hleast 2 ltac:(lia)).
    repeat (apply elem_of_cons in Hleast as [Hleast|Hleast];
            [vm_compute in Hleast; discriminate Hleast|]).
    by apply elem_of_nil in Hleast.
Defined.

Example unique_file_name_txt :
  unique_file_name 3 "out/head.txt" ["out/head_0.txt"; "out/head_1.txt"]
  = Some "out/head_2.txt".
Proof. reflexivity. Qed.

Example unique_file_name_no_ext :
  unique_file_name 1 "out.d/head" ["out.d/head"] = Some "out.d/head_0".
Proof. reflexivity. Qed.

(** ** [_in_pkg_list] *)

Lemma in_pkg_list_no_digit (pkg_list : list (string * bool))
    (pkg_type : string) (pkg_name : option string)
    (first : string) (rest : list string) (c : ascii) :
  PyDict.contains (PyStr.lower pkg_type) pkg_list = false →
  (∀ n, pkg_name = Some n → PyDict.contains (PyStr.lower n) pkg_list = false) →
  PyStr.split "-" (PyStr.lower pkg_type) = first :: rest →
  PyStr.last_char first = Some c →
  PyStr.int_of_char c = None →
  _in_pkg_list pkg_list (Some pkg_type) pkg_name = Ok false.
Proof.
  intros Htype Hname Hsplit Hlast Hint. unfold _in_pkg_list; simpl.
  rewrite Htype; simpl.
  assert (match PyStr.lower <$> pkg_name with
          | Some k => PyDict.contains k pkg_list
          | None => false
          end = false) as ->.
  { destruct pkg_name as [n|]; simpl; [by apply Hname | done]. }
  by rewrite Hsplit, Hlast, Hint.
Qed.

(** C9. [_in_pkg_list] accepts a type code whose first segment carries a
    version digit the rule set leaves out: the rule set [{"gwf": True}]
    matches ["gwf6"], the rule set [{"riv": True}] does not; and when neither
    lowered input is a key and the first hyphen-separated segment of the
    type code ends in a character that is not a digit, the answer is
    [False]. *)
Theorem in_pkg_list_trailing_digit :
  _in_pkg_list [("gwf", true)] (Some "gwf6") (Some "wel-1") = Ok true
  ∧ _in_pkg_list [("riv", true)] (Some "gwf6") (Some "wel") = Ok false
  ∧ (∀ (pkg_list : list (string * bool)) (pkg_type : string)
       (pkg_name : option string) (first : string) (rest : list string)
       (c : ascii),
       PyDict.contains (PyStr.lower pkg_type) pkg_list = false →
       (∀ n, pkg_name = Some n →
             PyDict.contains (PyStr.lower n) pkg_list = false) →
       PyStr.split "-" (PyStr.lower pkg_type) = first :: rest →
       PyStr.last_char first = Some c →
       PyStr.int_of_char c = None →
       _in_pkg_list pkg_list (Some pkg_type) pkg_name = Ok false).
Proof.
  split_and!; [reflexivity | reflexivity | apply in_pkg_list_no_digit].
Qed.

Lemma in_pkg_list_trailing_digit_witness :
  _in_pkg_list [("gwf", true)] (Some "Riv-Gwf6") (Some "gwf") = Ok true
  ∧ _in_pkg_list [("gwf", true)] (Some "Riv-Gwf6") (Some "wel") = Ok false.
Proof.
  split; [reflexivity|].
  refine (proj2 (proj2 in_pkg_list_trailing_digit)
            [("gwf", true)] "Riv-Gwf6" (Some "wel") "riv" ["gwf6"] "v"%char
            _ _ _ _ _); try reflexivity.
  intros n [= <-]. reflexivity.
Defined.

(** ** [resolve_path] *)

Lemma has_char_remove_char (c : ascii) (s : string) :
  PyStr.has_char c (PyStr.remove_char c s) = false.
Proof.
  induction s as [|a s IH]; simpl; [done|].
  destruct (Ascii.eqb a c) eqn:Hac; simpl; [done|]. by rewrite Hac.
Qed.

Lemma has_char_remove_other (c d : ascii) (s : string) :
  PyStr.has_char c s = false → PyStr.has_char c (PyStr.remove_char d s) = false.
Proof.
  induction s as [|a s IH]; simpl; [done|].
  intros [Hac Hs]%orb_false_elim.
  destruct (Ascii.eqb a d); simpl; [by apply IH|]. by rewrite Hac, IH.
Qed.

Lemma unquoted_no_quotes (path : path_arg) :
  PyStr.has_char "'" (unquoted path) = false
  ∧ PyStr.has_char "034" (unquoted path) = false.
Proof.
  unfold unquoted. split.
  - apply has_char_remove_other, has_char_remove_char.
  - apply has_char_remove_char.
Qed.

(** C1. With [p] the path specification (a string or a file record) without
    its quote characters: an absolute [p] is returned as it is under the
    default flags, whatever the roots, and gives way to the selected root
    (the snapshot root under [last_loaded_path], else the current one) under
    [move_abs_paths]; a relative [p] is joined onto the selected root. *)
Theorem resolve_path_absolute_or_joined (self : MFFileMgmt) (path : path_arg)
    (last_loaded_path : bool) :
  let p := unquoted path in
  let selected_root := get_sim_path self last_loaded_path in
  PyStr.has_char "'" p = false
  ∧ PyStr.has_char "034" p = false
  ∧ selected_root
      = (if last_loaded_path then _last_loaded_sim_path self
         else Some (_sim_path self))
  ∧ (posixpath.isabs p = true →
       resolve_path self path last_loaded_path false = Ok (Some p)
       ∧ resolve_path self path last_loaded_path true = Ok selected_root)
  ∧ (posixpath.isabs p = false →
       ∀ move_abs_paths : bool,
         resolve_path self path last_loaded_path move_abs_paths
           = (joined ← posixpath.join_opt selected_root p ;;; Ok (Some joined))
         ∧ (∀ r, selected_root = Some r →
              resolve_path self path last_loaded_path move_abs_paths
                = Ok (Some (posixpath.join r p)))).
Proof.
  intros p selected_root. subst p selected_root.
  destruct (unquoted_no_quotes path) as [Hq1 Hq2].
  split_and!; try done.
  - intros Habs. unfold resolve_path. by rewrite Habs.
  - intros Hrel mv. unfold resolve_path. rewrite Hrel.
    split; [done|]. by intros r ->.
Qed.

Lemma resolve_path_absolute_or_joined_witness :
  let self := set_last_accessed_path (MFFileMgmt_init "/home/sim") in
  resolve_path self (PathStr "'/data/heads.bin'") false false
    = Ok (Some "/data/heads.bin")
  ∧ resolve_path self (PathStr "'/data/heads.bin'") true true
    = Ok (Some "/home/sim")
  ∧ resolve_path self (PathFile (MFFilePath_init "ext/heads.bin" "gwf1")) false false
    = Ok (Some "/home/sim/ext/heads.bin").
Proof.
  intros self.
  destruct (resolve_path_absolute_or_joined self (PathStr "'/data/heads.bin'") false)
    as (_ & _ & _ & Habs & _).
  destruct (resolve_path_absolute_or_joined self (PathStr "'/data/heads.bin'") true)
    as (_ & _ & _ & Hmoved & _).
  destruct (resolve_path_absolute_or_joined self
              (PathFile (MFFilePath_init "ext/heads.bin" "gwf1")) false)
    as (_ & _ & _ & _ & Hrel).
  split_and!.
  - exact (proj1 (Habs eq_refl)).
  - exact (proj2 (Hmoved eq_refl)).
  - exact (proj2 (Hrel eq_refl false) _ eq_refl).
Defined.

(** ** [get_model_path] *)

Lemma get_model_path_current (self : MFFileMgmt) (key : string) :
  get_model_path self key false
  = Ok (match model_relative_path self !! key with
        | Some rel => posixpath.join (_sim_path self) rel
        | None => _sim_path self
        end).
Proof. unfold get_model_path. by destruct (_ !! key). Qed.

Lemma get_model_path_last_loaded_missing (self : MFFileMgmt) (key : string) :
  _last_loaded_model_relative_path self !! key = None →
  get_model_path self key true = Raise KeyError.
Proof. intros Hnone. unfold get_model_path. by rewrite Hnone. Qed.

(** C8, at the input on which the code departs from it: after a snapshot of
    a simulation at ["/sim"] without registered models, the path of model
    ["gwf1"] is the root under the current state, and asking for it with
    [last_loaded_path] raises [KeyError]. *)
Theorem get_model_path_last_loaded_raises :
  let self := set_last_accessed_path (MFFileMgmt_init "/sim") in
  _last_loaded_sim_path self = Some "/sim"
  ∧ model_relative_path self !! "gwf1" = None
  ∧ get_model_path self "gwf1" false = Ok "/sim"
  ∧ get_model_path self "gwf1" true = Raise KeyError.
Proof.
  intros self. split_and!.
  - reflexivity.
  - reflexivity.
  - by rewrite get_model_path_current.
  - apply get_model_path_last_loaded_missing. subst self; simpl.
    by rewrite lookup_union, !lookup_empty.
Qed.

(** ** Ordered dictionaries *)

Section dict_props.
Context {K V : Type} `{EqDecision K}.
Implicit Types (d : list (K * V)) (k : K).

Lemma contains_elem_of k d : PyDict.contains k d = true ↔ k ∈ d.*1.
Proof. unfold PyDict.contains. by rewrite bool_decide_eq_true. Qed.

Lemma get_None_not_key k d : PyDict.get k d = None ↔ k ∉ d.*1.
Proof.
  induction d as [|[k' v] d IH]; simpl.
  - split; [intros _; apply not_elem_of_nil | done].
  - rewrite not_elem_of_cons. destruct (decide (k' = k)) as [->|Hne].
    + split; [done | by intros [? _]].
    + rewrite IH. split; [by intros ?; split | by intros [_ ?]].
Qed.

Lemma filter_filter (f g : K * V → bool) d :
  List.filter f (List.filter g d) = List.filter (λ kv, g kv && f kv) d.
Proof.
  induction d as [|kv d IH]; simpl; [done|].
  destruct (g kv); simpl; [|done]. destruct (f kv); by rewrite IH.
Qed.

Lemma filter_ext_elem (f g : K * V → bool) d :
  (∀ kv, kv ∈ d → f kv = g kv) → List.filter f d = List.filter g d.
Proof.
  induction d as [|kv d IH]; intros Hfg; simpl; [done|].
  rewrite (Hfg kv) by apply list_elem_of_here.
  rewrite IH; [done|]. intros kv' Hin. apply Hfg. by apply list_elem_of_further.
Qed.

Lemma keys_filter (p : K → bool) d :
  (List.filter (λ kv, p kv.1) d).*1 = List.filter p d.*1.
Proof.
  induction d as [|[k v] d IH]; simpl; [done|].
  destruct (p k); simpl; [f_equal|]; apply IH.
Qed.

Lemma elem_of_keys_remove k k' d :
  k' ∈ (PyDict.remove k d).*1 ↔ k' ≠ k ∧ k' ∈ d.*1.
Proof.
  unfold PyDict.remove.
  pose proof (keys_filter (λ k0, negb (bool_decide (k0 = k))) d) as Hkeys.
  cbv beta in Hkeys. rewrite Hkeys.
  rewrite list_elem_of_In, filter_In, <- list_elem_of_In.
  rewrite negb_true_iff, bool_decide_eq_false. tauto.
Qed.

Lemma get_filter (p : K → bool) k d :
  PyDict.get k (List.filter (λ kv, p kv.1) d)
  = if p k then PyDict.get k d else None.
Proof.
  induction d as [|[k' v] d IH]; simpl; [by destruct (p k)|].
  destruct (p k') eqn:Hp'; simpl; destruct (decide (k' = k)) as [->|Hne].
  - by rewrite Hp'.
  - done.
  - by rewrite IH, Hp'.
  - done.
Qed.

Lemma wf_filter (f : K * V → bool) d : PyDict.wf d → PyDict.wf (List.filter f d).
Proof.
  unfold PyDict.wf. induction d as [|[k v] d IH]; simpl; [done|].
  rewrite NoDup_cons. intros [Hk Hd]. destruct (f (k, v)); simpl; [|by apply IH].
  apply NoDup_cons. split; [|by apply IH].
  intros ((k' & v') & Heq & Hin)%list_elem_of_fmap. simpl in Heq; subst k'.
  apply Hk, list_elem_of_fmap. exists (k, v').
  split; [done|]. apply list_elem_of_In. apply list_elem_of_In, filter_In in Hin.
  tauto.
Qed.

End dict_props.

(** ** [remove_package] *)

Lemma is_subkey_prefix_match (path key : list ident) :
  is_subkey path key = true ↔ prefix_match path key.
Proof.
  unfold prefix_match. revert key.
  induction path as [|pitem path IH]; intros [|ditem key]; simpl;
    try (split; [intros _ i Hi; lia | done]).
  destruct (decide (pitem = ditem)) as [->|Hne].
  - rewrite IH. split.
    + intros Htl [|i] Hi; simpl; [done|]. apply Htl. lia.
    + intros Hall i Hi. apply (Hall (S i)). lia.
  - split; [done|]. intros Hall. specialize (Hall 0 ltac:(lia)).
    simpl in Hall. congruence.
Qed.

Section store.
Context {V : Type}.
Implicit Types (d : list (list ident * V)) (keys : list (list ident)).

(** Deleting keys that are all present, one after the other, leaves the
    other entries in their order. *)
Lemma delete_keys_filter keys d :
  NoDup keys → (∀ key, key ∈ keys → key ∈ d.*1) →
  delete_keys keys d
  = Ok (List.filter (λ kv, negb (bool_decide (kv.1 ∈ keys))) d).
Proof.
  revert d. induction keys as [|key keys IH]; intros d Hnodup Hin; simpl.
  - f_equal. clear. induction d as [|kv d IHd]; simpl; [done | by f_equal].
  - apply NoDup_cons in Hnodup as [Hkey Hnodup].
    unfold PyDict.delitem.
    rewrite (proj2 (contains_elem_of key d)) by (apply Hin, list_elem_of_here).
    simpl. rewrite IH; [|done|].
    + f_equal. unfold PyDict.remove. rewrite filter_filter.
      apply filter_ext_elem. intros [k v] _; simpl.
      destruct (decide (k = key)) as [->|Hne].
      * rewrite (bool_decide_eq_true_2 (key = key)) by done.
        by rewrite (bool_decide_eq_true_2 (key ∈ key :: keys))
          by apply list_elem_of_here.
      * rewrite (bool_decide_eq_false_2 (k = key)) by done. simpl.
        f_equal. apply bool_decide_ext. rewrite elem_of_cons.
        split; [by right | by intros [?|?]].
    + intros key' Hkey'. apply elem_of_keys_remove. split.
      * by intros ->.
      * apply Hin. by apply list_elem_of_further.
Qed.

Lemma items_to_remove_nodup (path : list ident) d :
  PyDict.wf d → NoDup (List.filter (is_subkey path) (PyDict.keys d)).
Proof. intros Hwf. by apply NoDup_ListNoDup, List.NoDup_filter, NoDup_ListNoDup. Qed.

Lemma remove_package_mfdata (self : PackageContainer V) (package : MFPackage) :
  PyDict.wf (mfdata self) →
  ∃ self',
    remove_package self package = Ok self'
    ∧ mfdata self'
      = List.filter (λ kv, negb (is_subkey (path package) kv.1)) (mfdata self).
Proof.
  intros Hwf. unfold remove_package.
  rewrite delete_keys_filter.
  - simpl. eexists; split; [done|]. simpl.
    apply filter_ext_elem. intros [k v] Hin; simpl. f_equal.
    destruct (is_subkey (path package) k) eqn:Hsub.
    + apply bool_decide_eq_true_2, list_elem_of_In, filter_In.
      split; [|done]. apply list_elem_of_In.
      unfold PyDict.keys. apply list_elem_of_fmap. by exists (k, v).
    + apply bool_decide_eq_false_2. intros [_ ?]%list_elem_of_In%filter_In.
      congruence.
  - by apply items_to_remove_nodup.
  - intros key [Hin _]%list_elem_of_In%filter_In. by apply list_elem_of_In.
Qed.

End store.

(** C5. On a store whose keys are distinct, [remove_package] returns, and the
    store it leaves holds no key that agrees with [package.path] on every
    position of the shorter of the two, while every key that differs from
    the path at some compared position keeps its place and its value; the
    store left is the old one with the first kind of key filtered out. *)
Theorem remove_package_deletes_prefix_keys {V : Type}
    (self : PackageContainer V) (package : MFPackage) :
  PyDict.wf (mfdata self) →
  ∃ self',
    remove_package self package = Ok self'
    ∧ PyDict.wf (mfdata self')
    ∧ mfdata self'
      = List.filter (λ kv, negb (is_subkey (path package) kv.1)) (mfdata self)
    ∧ (∀ key, prefix_match (path package) key →
              PyDict.get key (mfdata self') = None)
    ∧ (∀ key, ¬ prefix_match (path package) key →
              PyDict.get key (mfdata self') = PyDict.get key (mfdata self)).
Proof.
  intros Hwf.
  destruct (remove_package_mfdata self package Hwf) as (self' & Hrun & Hdata).
  exists self'. split_and!; [done | | done | |].
  - rewrite Hdata. by apply wf_filter.
  - intros key Hmatch%is_subkey_prefix_match.
    rewrite Hdata, (get_filter (λ k, negb (is_subkey (path package) k))).
    by rewrite Hmatch.
  - intros key Hdiffer.
    rewrite Hdata, (get_filter (λ k, negb (is_subkey (path package) k))).
    destruct (is_subkey (path package) key) eqn:Hsub; [|done].
    by apply is_subkey_prefix_match in Hsub.
Qed.

Lemma example_store_wf : PyDict.wf example_store.
Proof.
  unfold PyDict.wf, example_store; simpl.
  repeat (apply NoDup_cons; split;
          [rewrite ?not_elem_of_cons; split_and?;
           try apply not_elem_of_nil; discriminate|]).
  apply NoDup_nil_2.
Qed.

Lemma remove_package_deletes_prefix_keys_witness :
  ∃ self',
    remove_package (PackageContainer_init example_store) example_wel = Ok self'
    ∧ mfdata self'
      = [([IStr "gwf1"; IStr "riv"; IStr "RIV-1"; IStr "period"; IInt 1], "reaches");
         ([IStr "gwf2"; IStr "wel"; IStr "WEL-1"; IStr "period"; IInt 1], "others")].
Proof.
  destruct (remove_package_deletes_prefix_keys
              (PackageContainer_init example_store) example_wel example_store_wf)
    as (self' & Hrun & _ & Hdata & _).
  exists self'. split; [exact Hrun | exact Hdata].
Defined.

(** ** [_rename_package] *)

(** The key that [_rename_package] builds for a key under the package path
    keeps the old identity component after the new name. *)
Lemma renamed_key_keeps_old_name (parent : list ident) (old : ident)
    (new_name : string) (suffix : list ident) :
  renamed_key (parent ++ [old]) new_name (parent ++ [old] ++ suffix)
  = parent ++ [IStr new_name; old] ++ suffix.
Proof.
  unfold renamed_key, but_last, slice_from.
  rewrite length_app; simpl.
  replace (length parent + 1 - 1) with (length parent) by lia.
  rewrite take_app_length.
  replace (Z.of_nat (length parent + 1) - 1)%Z with (Z.of_nat (length parent)) by lia.
  rewrite (proj2 (Z.ltb_ge _ _)) by lia.
  rewrite Nat2Z.id, drop_app_length. done.
Qed.

(** C3, at the input of its example: renaming the package at
    [("gwf1", "wel", "WEL-1")] to ["WEL-2"] moves the entry of key
    [("gwf1", "wel", "WEL-1", "period", 1)] to the key
    [("gwf1", "wel", "WEL-2", "WEL-1", "period", 1)], and no entry is left
    under [("gwf1", "wel", "WEL-2", "period", 1)]. *)
Theorem rename_package_keeps_old_name {V : Type} (v : V) :
  let package :=
    {| oid := 1; package_name := Some "WEL-1"; filename := None;
       package_type := "wel";
       path := [IStr "gwf1"; IStr "wel"; IStr "WEL-1"] |} in
  let self :=
    PackageContainer_init
      [([IStr "gwf1"; IStr "wel"; IStr "WEL-1"; IStr "period"; IInt 1], v)] in
  ∃ self',
    _rename_package self package "WEL-2" = Ok self'
    ∧ mfdata self'
      = [([IStr "gwf1"; IStr "wel"; IStr "WEL-2"; IStr "WEL-1"; IStr "period";
           IInt 1], v)]
    ∧ PyDict.get [IStr "gwf1"; IStr "wel"; IStr "WEL-2"; IStr "period"; IInt 1]
        (mfdata self') = None.
Proof.
  intros package self. eexists. split_and!; reflexivity.
Qed.

(** ** [add_package] *)

(** Adding a package whose type is already in lower case keeps the type
    index complete. *)
Lemma add_package_lower_type_indexed {V : Type} (self : PackageContainer V)
    (package : MFPackage) :
  PyStr.lower (package_type package) = package_type package →
  indexed_by_type self →
  ∃ self', add_package self package = Ok self' ∧ indexed_by_type self'.
Proof.
  intros Hlower Hinv. unfold add_package. rewrite Hlower.
  destruct (package_type_dict self !! package_type package) as [bucket|] eqn:Hb.
  - rewrite Hb. eexists; split; [done|].
    intros q Hq; simpl in *. apply elem_of_app in Hq as [Hq|Hq].
    + destruct (Hinv q Hq) as (bq & Hbq & Hin).
      destruct (decide (PyStr.lower (package_type q) = package_type package)) as [Heq|Hne].
      * rewrite Heq, lookup_insert_eq. eexists; split; [done|].
        rewrite Heq, Hb in Hbq. injection Hbq as ->.
        apply elem_of_app. by left.
      * rewrite lookup_insert_ne by done. by exists bq.
    + apply list_elem_of_singleton in Hq as ->.
      rewrite Hlower, lookup_insert_eq. eexists; split; [done|].
      apply elem_of_app. right. apply list_elem_of_singleton. done.
  - rewrite lookup_insert_eq. eexists; split; [done|].
    intros q Hq; simpl in *. apply elem_of_app in Hq as [Hq|Hq].
    + destruct (Hinv q Hq) as (bq & Hbq & Hin).
      destruct (decide (PyStr.lower (package_type q) = package_type package)) as [Heq|Hne].
      * rewrite Heq, Hb in Hbq. done.
      * rewrite !lookup_insert_ne by done. by exists bq.
    + apply list_elem_of_singleton in Hq as ->.
      rewrite Hlower, lookup_insert_eq. eexists; split; [done|].
      apply list_elem_of_singleton. done.
Qed.

(** C2, at the input on which the code departs from it: after adding a
    package of type ["wel"] and then one of type ["WEL"], both are in the
    package list and the bucket ["wel"] holds the second one only, since the
    membership test of [add_package] uses the type as given and the bucket
    is created anew. *)
Theorem add_package_upper_type_resets_bucket {V : Type}
    (data : list (list ident * V)) :
  let first :=
    {| oid := 1; package_name := Some "wel-1"; filename := None;
       package_type := "wel"; path := [IStr "gwf1"; IStr "wel-1"] |} in
  let second :=
    {| oid := 2; package_name := Some "wel-2"; filename := None;
       package_type := "WEL"; path := [IStr "gwf1"; IStr "wel-2"] |} in
  ∃ self1 self2,
    add_package (PackageContainer_init data) first = Ok self1
    ∧ add_package self1 second = Ok self2
    ∧ packagelist self2 = [first; second]
    ∧ package_type_dict self2 !! "wel" = Some [second]
    ∧ ¬ indexed_by_type self2.
Proof.
  intros first second. eexists _, _. split_and!.
  - reflexivity.
  - reflexivity.
  - reflexivity.
  - reflexivity.
  - intros Hinv. destruct (Hinv first) as (bucket & Hbucket & Hin).
    + simpl. apply list_elem_of_here.
    + vm_compute in Hbucket. injection Hbucket as <-.
      apply list_elem_of_singleton in Hin. discriminate Hin.
Qed.

(** ** [copy_files] *)

Lemma copy_files_except_attribute_error (cause : string) :
  copy_files_except cause = AttributeError "MFFileMgmt" "structure".
Proof. reflexivity. Qed.

Section copy_files_props.
Context {World : Type} `{FileSystem World}.

Lemma resolve_path_raises_type_error (self : MFFileMgmt) (path : path_arg)
    (last_loaded_path move_abs_paths : bool) (e : exn) :
  resolve_path self path last_loaded_path move_abs_paths = Raise e → e = TypeError.
Proof.
  unfold resolve_path, posixpath.join_opt.
  destruct (posixpath.isabs _); [by destruct move_abs_paths|].
  destruct (get_sim_path _ _); simpl; [done | by intros [= <-]].
Qed.

Lemma copy_files_body_no_domain_error (self : MFFileMgmt) (flag : bool)
    (f : MFFilePath) (w w' : World) (num : nat) (e : exn) :
  copy_files_body self flag f w num = (w', Raise e) →
  ∀ x, e ≠ MFDataError x.
Proof.
  unfold copy_files_body. intros Hrun x ->.
  destruct (resolve_path self (PathFile f) true false) as [[path_old|]|e1] eqn:Hold;
    [| by simplify_eq | apply resolve_path_raises_type_error in Hold; by simplify_eq].
  destruct (_ && _); [|by simplify_eq].
  destruct (resolve_path self (PathFile f) false false) as [[path_new|]|e2] eqn:Hnew;
    [| by simplify_eq | apply resolve_path_raises_type_error in Hnew; by simplify_eq].
  destruct (negb _); [|by simplify_eq].
  destruct (if negb _ then _ else _) as [w1 [msg|]]; [by simplify_eq|].
  destruct (copyfile w1 path_old path_new) as [w2 [cause|]]; [|by simplify_eq].
  rewrite copy_files_except_attribute_error in Hrun. by simplify_eq.
Qed.

(** No run of [copy_files] ends in an [MFDataException]. *)
Lemma copy_files_no_domain_error (self : MFFileMgmt) (flag : bool)
    (w w' : World) (e : exn) :
  copy_files self flag w = (w', Raise e) → ∀ x, e ≠ MFDataError x.
Proof.
  unfold copy_files. destruct (_last_loaded_sim_path self); [|by intros [= _ ?]].
  generalize (PyDict.values (existing_file_dict self)) as files.
  generalize 0 as num. intros num files. revert w num.
  induction files as [|f files IH]; intros w num; simpl; [by intros [= _ ?]|].
  destruct (copy_files_body self flag f w num) as [w1 [num1|e1]] eqn:Hbody.
  - apply IH.
  - intros [= <- <-]. by eapply copy_files_body_no_domain_error.
Qed.

(** The loop stops at the first file whose body raises: the files after it
    are not looked at, and the file system is the one that file left. *)
Lemma copy_files_loop_stops (self : MFFileMgmt) (flag : bool)
    (before after : list MFFilePath) (f : MFFilePath)
    (w w1 w2 : World) (num num1 : nat) (e : exn) :
  copy_files_loop self flag before w num = (w1, Ok num1) →
  copy_files_body self flag f w1 num1 = (w2, Raise e) →
  copy_files_loop self flag (before ++ f :: after) w num = (w2, Raise e).
Proof.
  revert w num. induction before as [|g before IH]; intros w num; simpl.
  - intros [= <- <-] Hbody. by rewrite Hbody.
  - destruct (copy_files_body self flag g w num) as [w' [num'|e']]; [|done].
    apply IH.
Qed.

End copy_files_props.

(** C4, at an input on which the code departs from it: the simulation moved
    from ["/old"] to ["/new"] has three relative external files, and the
    copy of the second fails.  [copy_files] raises at once, with the first
    file copied and the third not, but what it raises is the
    [AttributeError] of reading [self.structure] in the handler, not an
    [MFDataException]. *)
Theorem copy_files_failure_raises_attribute_error :
  ∃ w',
    copy_files moved_simulation true moved_disk
      = (w', Raise (AttributeError "MFFileMgmt" "structure"))
    ∧ disk_files w' = "/new/a.dat" :: disk_files moved_disk
    ∧ (∀ x, copy_files moved_simulation true moved_disk ≠ (w', Raise (MFDataError x))).
Proof.
  eexists. split_and!.
  - vm_compute. reflexivity.
  - reflexivity.
  - intros x Hrun.
    by eapply (copy_files_no_domain_error moved_simulation true moved_disk).
Qed.

(** ** [pathlib] on joined paths *)

Lemma split_not_nil (c : ascii) (s : string) : PyStr.split c s ≠ [].
Proof.
  destruct s as [|a s]; simpl; [done|].
  destruct (Ascii.eqb a c); [done|]. by destruct (PyStr.split c s).
Qed.

Lemma split_app_sep (c : ascii) (a b : string) :
  PyStr.split c (a +:+ String c b) = PyStr.split c a ++ PyStr.split c b.
Proof.
  induction a as [|x a IH].
  - rewrite str_app_nil_l. simpl. by rewrite Ascii.eqb_refl.
  - rewrite str_app_cons. simpl. rewrite IH.
    destruct (Ascii.eqb x c); [done|].
    pose proof (split_not_nil c a) as Hne.
    by destruct (PyStr.split c a).
Qed.

Lemma endswith_app (c : ascii) (s : string) :
  PyStr.endswith c s = true → ∃ s', s = s' +:+ String c "".
Proof.
  induction s as [|a s IH]; simpl; [done|].
  destruct s as [|b s].
  - intros ->%Ascii.eqb_eq. by exists "".
  - intros (s' & Hs')%IH. exists (String a s'). by rewrite str_app_cons, <- Hs'.
Qed.

Lemma startswith_app (c : ascii) (a b : string) :
  a ≠ "" → PyStr.startswith c (a +:+ b) = PyStr.startswith c a.
Proof. by destruct a. Qed.

Lemma Path_relative (s : string) :
  PyStr.startswith "/" s = false →
  pathlib.Path s
  = {| pathlib.root := "";
       pathlib.parts := List.filter pathlib.keep_part (PyStr.split "/" s) |}.
Proof. intros Hrel. unfold pathlib.Path, pathlib.splitroot. by rewrite Hrel. Qed.

Lemma Path_absolute (s : string) :
  PyStr.startswith "/" s = true → pathlib.is_absolute (pathlib.Path s) = true.
Proof.
  intros Habs. unfold pathlib.Path, pathlib.splitroot. rewrite Habs.
  by destruct (_ =? 2).
Qed.

Lemma is_absolute_startswith (s : string) :
  pathlib.is_absolute (pathlib.Path s) = PyStr.startswith "/" s.
Proof.
  destruct (PyStr.startswith "/" s) eqn:Hs; [by apply Path_absolute|].
  by rewrite Path_relative.
Qed.

Lemma strip_prefix_app (pre l : list string) :
  pathlib.strip_prefix pre (pre ++ l) = Some l.
Proof.
  induction pre as [|x pre IH]; simpl; [by destruct l|].
  by rewrite String.eqb_refl.
Qed.

(** A relative path whose string is not ["."] has a component. *)
Lemma nontrivial_parts (rel : string) :
  pathlib.is_absolute (pathlib.Path rel) = false →
  pathlib.str (pathlib.Path rel) ≠ "." →
  PyStr.startswith "/" rel = false
  ∧ List.filter pathlib.keep_part (PyStr.split "/" rel) ≠ []
  ∧ rel ≠ "".
Proof.
  rewrite is_absolute_startswith. intros Hrel Hstr.
  rewrite (Path_relative rel Hrel) in Hstr.
  split_and!; [done | |].
  - intros Hnil. apply Hstr. unfold pathlib.str; simpl. by rewrite Hnil.
  - intros ->. by apply Hstr.
Qed.

(** The components of [os.path.join(rel, tail)] for two relative paths are
    those of [rel] followed by those of [tail]. *)
Lemma parts_join (rel tail : string) :
  rel ≠ "" → PyStr.startswith "/" tail = false →
  List.filter pathlib.keep_part (PyStr.split "/" (posixpath.join rel tail))
  = List.filter pathlib.keep_part (PyStr.split "/" rel)
    ++ List.filter pathlib.keep_part (PyStr.split "/" tail).
Proof.
  intros Hrel Htail. unfold posixpath.join. rewrite Htail.
  rewrite bool_decide_eq_false_2 by done. simpl.
  destruct (PyStr.endswith "/" rel) eqn:Hends.
  - apply endswith_app in Hends as (rel' & ->).
    rewrite str_app_assoc. change (String "/" "" +:+ tail) with (String "/" tail).
    rewrite !split_app_sep, !List.filter_app. simpl.
    by rewrite app_nil_r.
  - change ("/" +:+ tail) with (String "/" tail).
    by rewrite split_app_sep, List.filter_app.
Qed.

Lemma join_relative (rel tail : string) :
  rel ≠ "" → PyStr.startswith "/" rel = false → PyStr.startswith "/" tail = false →
  PyStr.startswith "/" (posixpath.join rel tail) = false.
Proof.
  intros Hne Hrel Htail. unfold posixpath.join. rewrite Htail.
  destruct (_ || _); by rewrite startswith_app.
Qed.

(** ** [strip_model_relative_path] *)

Section strip.
Variables (self : MFFileMgmt) (model_name rel : string).
Hypothesis Hregistered : model_relative_path self !! model_name = Some rel.
Hypothesis Hrelative : pathlib.is_absolute (pathlib.Path rel) = false.
Hypothesis Hnontrivial : pathlib.str (pathlib.Path rel) ≠ ".".

Lemma strip_nontrivial (path : string) :
  strip_model_relative_path self model_name path
  = match pathlib.relative_to (pathlib.Path path) (pathlib.Path rel) with
    | Some ret_path => (pathlib.as_posix ret_path, [])
    | None => (pathlib.as_posix (pathlib.Path path), [CouldNotStrip path])
    end.
Proof.
  unfold strip_model_relative_path. rewrite Hregistered, Hrelative. simpl.
  assert (pathlib.str (pathlib.Path rel) ≠ "") as Hne.
  { unfold pathlib.str. cbv zeta.
    by destruct (String.eqb_spec
                   (pathlib.root (pathlib.Path rel)
                    +:+ PyStr.join "/" (pathlib.parts (pathlib.Path rel))) ""). }
  apply String.eqb_neq in Hne, Hnontrivial.
  by rewrite Hne, Hnontrivial.
Qed.

Lemma strip_join_relative (tail : string) :
  posixpath.isabs tail = false →
  strip_model_relative_path self model_name (posixpath.join rel tail)
  = (pathlib.as_posix (pathlib.Path tail), []).
Proof.
  intros Htail. unfold posixpath.isabs in Htail.
  destruct (nontrivial_parts rel Hrelative Hnontrivial) as (Hrel & _ & Hne).
  rewrite strip_nontrivial.
  rewrite (Path_relative _ (join_relative rel tail Hne Hrel Htail)).
  rewrite (Path_relative rel Hrel), (Path_relative tail Htail).
  rewrite (parts_join rel tail Hne Htail).
  unfold pathlib.relative_to; simpl. by rewrite strip_prefix_app.
Qed.

Lemma strip_join_absolute (tail : string) :
  posixpath.isabs tail = true →
  strip_model_relative_path self model_name (posixpath.join rel tail)
  = (pathlib.as_posix (pathlib.Path tail), [CouldNotStrip tail]).
Proof.
  intros Htail. unfold posixpath.isabs in Htail.
  assert (posixpath.join rel tail = tail) as ->.
  { unfold posixpath.join. by rewrite Htail. }
  rewrite strip_nontrivial. unfold pathlib.relative_to.
  pose proof (Path_absolute tail Htail) as Habs.
  unfold pathlib.is_absolute in Habs, Hrelative.
  apply negb_true_iff, String.eqb_neq in Habs.
  apply negb_false_iff, String.eqb_eq in Hrelative.
  rewrite Hrelative. apply String.eqb_neq in Habs. by rewrite Habs.
Qed.

End strip.

(** C6. For a model registered with a relative path that is neither
    absolute nor the current directory, stripping the join of that path and
    any tail gives the tail in its canonical forward-slash form, without a
    warning when the tail is relative; for a model that is not registered,
    or whose path is empty, ["."], absolute, or otherwise the current
    directory, the input comes back as it is. *)
Theorem strip_model_relative_path_of_join (self : MFFileMgmt) (model_name : string) :
  (∀ rel tail : string,
     model_relative_path self !! model_name = Some rel →
     pathlib.is_absolute (pathlib.Path rel) = false →
     pathlib.str (pathlib.Path rel) ≠ "." →
     (strip_model_relative_path self model_name (posixpath.join rel tail)).1
       = pathlib.as_posix (pathlib.Path tail)
     ∧ (posixpath.isabs tail = false →
          (strip_model_relative_path self model_name (posixpath.join rel tail)).2
            = []))
  ∧ (∀ path : string,
       model_relative_path self !! model_name = None
       ∨ (∃ rel, model_relative_path self !! model_name = Some rel
                 ∧ (rel = "" ∨ rel = "."
                    ∨ pathlib.is_absolute (pathlib.Path rel) = true
                    ∨ pathlib.str (pathlib.Path rel) = ".")) →
       strip_model_relative_path self model_name path = (path, [])).
Proof.
  split.
  - intros rel tail Hreg Hrel Hnontrivial.
    destruct (posixpath.isabs tail) eqn:Htail.
    + rewrite (strip_join_absolute self model_name rel Hreg Hrel Hnontrivial tail Htail).
      by split.
    + rewrite (strip_join_relative self model_name rel Hreg Hrel Hnontrivial tail Htail).
      by split.
  - intros path [Hnone | (rel & Hreg & Htrivial)]; unfold strip_model_relative_path.
    + by rewrite Hnone.
    + rewrite Hreg.
      destruct Htrivial as [-> | [-> | [Habs | Hdot]]]; [done | done | |].
      * by rewrite Habs.
      * rewrite Hdot. simpl. by rewrite orb_true_r.
Qed.

Lemma strip_model_relative_path_of_join_witness :
  (strip_model_relative_path two_models "gwf1"
     (posixpath.join "models/gwf1" "input/wel.dat")).1 = "input/wel.dat"
  ∧ strip_model_relative_path two_models "gwf2" "input/wel.dat"
    = ("input/wel.dat", []).
Proof.
  destruct (strip_model_relative_path_of_join two_models "gwf1") as [Hjoin _].
  destruct (strip_model_relative_path_of_join two_models "gwf2") as [_ Hsame].
  split.
  - refine (proj1 (Hjoin "models/gwf1" "input/wel.dat" _ _ _));
      [reflexivity | reflexivity | discriminate].
  - apply Hsame. right. exists ".". split; [reflexivity | by right; left].
Defined.

(** C7 as stated fails: the path ["other//head.txt"] does not lie under
    ["models/gwf1"], and what comes back is ["other/head.txt"], not the
    input. *)
Lemma strip_mismatch_changes_path :
  pathlib.relative_to (pathlib.Path "other//head.txt") (pathlib.Path "models/gwf1")
    = None
  ∧ strip_model_relative_path two_models "gwf1" "other//head.txt"
    = ("other/head.txt", [CouldNotStrip "other//head.txt"])
  ∧ (strip_model_relative_path two_models "gwf1" "other//head.txt").1
    ≠ "other//head.txt".
Proof. split_and!; [reflexivity | reflexivity | discriminate]. Qed.

(** C7, amended.  For a model registered with a relative path that is
    neither absolute nor the current directory, and a path that does not
    lie under it, [strip_model_relative_path] returns (it has no failing
    case) the input path in its canonical forward-slash form with one
    warning; that is the input itself when the input is canonical. *)
Theorem strip_model_relative_path_mismatch (self : MFFileMgmt)
    (model_name rel path : string) :
  model_relative_path self !! model_name = Some rel →
  pathlib.is_absolute (pathlib.Path rel) = false →
  pathlib.str (pathlib.Path rel) ≠ "." →
  pathlib.relative_to (pathlib.Path path) (pathlib.Path rel) = None →
  strip_model_relative_path self model_name path
    = (pathlib.as_posix (pathlib.Path path), [CouldNotStrip path])
  ∧ (pathlib.str (pathlib.Path path) = path →
       strip_model_relative_path self model_name path
         = (path, [CouldNotStrip path])).
Proof.
  intros Hreg Hrel Hnontrivial Hmismatch.
  rewrite (strip_nontrivial self model_name rel Hreg Hrel Hnontrivial).
  rewrite Hmismatch. split; [done|]. unfold pathlib.as_posix. by intros ->.
Qed.

Lemma strip_model_relative_path_mismatch_witness :
  strip_model_relative_path two_models "gwf1" "other/head.txt"
  = ("other/head.txt", [CouldNotStrip "other/head.txt"]).
Proof.
  refine (proj2 (strip_model_relative_path_mismatch two_models "gwf1"
                   "models/gwf1" "other/head.txt" _ _ _ _) _);
    [reflexivity | reflexivity | discriminate | reflexivity | reflexivity].
Defined.

(** * Further properties of the two files *)

(** ** More on strings and dictionaries *)

Lemma lower_char_idemp (c : ascii) :
  PyStr.lower_char (PyStr.lower_char c) = PyStr.lower_char c.
Proof. by destruct c as [[] [] [] [] [] [] [] []]. Qed.

Lemma lower_idemp (s : string) : PyStr.lower (PyStr.lower s) = PyStr.lower s.
Proof.
  induction s as [|c s IH]; simpl; [done|]. by rewrite lower_char_idemp, IH.
Qed.

Lemma lower_length (s : string) : String.length (PyStr.lower s) = String.length s.
Proof. induction s as [|c s IH]; simpl; [done | by rewrite IH]. Qed.

Lemma lower_take (n : nat) (s : string) :
  PyStr.lower (PyStr.take n s) = PyStr.take n (PyStr.lower s).
Proof.
  revert s; induction n as [|n IH]; intros [|c s]; simpl; try done.
  by rewrite IH.
Qed.

Lemma lower_app (s t : string) :
  PyStr.lower (s +:+ t) = PyStr.lower s +:+ PyStr.lower t.
Proof.
  induction s as [|c s IH]; [done|].
  rewrite str_app_cons. simpl. by rewrite IH, str_app_cons.
Qed.

Lemma remove_char_absent (c : ascii) (s : string) :
  PyStr.has_char c s = false → PyStr.remove_char c s = s.
Proof.
  induction s as [|a s IH]; simpl; [done|].
  intros [Hac Hs]%orb_false_elim. rewrite Hac. by rewrite IH.
Qed.

Section dict_set_props.
Context {K V : Type} `{EqDecision K}.
Implicit Types (d : list (K * V)) (k : K) (v : V).

Lemma get_set_eq k v d : PyDict.get k (PyDict.set k v d) = Some v.
Proof.
  induction d as [|[k' v'] d IH]; simpl.
  - by rewrite decide_True.
  - destruct (decide (k' = k)) as [->|Hne]; simpl.
    + by rewrite decide_True.
    + by rewrite decide_False.
Qed.

Lemma get_set_ne k k' v d :
  k ≠ k' → PyDict.get k' (PyDict.set k v d) = PyDict.get k' d.
Proof.
  intros Hne. induction d as [|[k0 v0] d IH]; simpl.
  - by rewrite decide_False.
  - destruct (decide (k0 = k)) as [->|Hne0]; simpl.
    + by rewrite !decide_False.
    + destruct (decide (k0 = k')); [done | apply IH].
Qed.

Lemma keys_set k k' v d :
  k' ∈ (PyDict.set k v d).*1 ↔ k' = k ∨ k' ∈ d.*1.
Proof.
  induction d as [|[k0 v0] d IH]; simpl.
  - rewrite list_elem_of_singleton, elem_of_nil. tauto.
  - destruct (decide (k0 = k)) as [->|Hne]; simpl.
    + rewrite elem_of_cons. tauto.
    + rewrite !elem_of_cons, IH. tauto.
Qed.

Lemma wf_set k v d : PyDict.wf d → PyDict.wf (PyDict.set k v d).
Proof.
  unfold PyDict.wf. induction d as [|[k0 v0] d IH]; simpl.
  - intros _. apply NoDup_singleton.
  - rewrite NoDup_cons. intros [Hk0 Hd].
    destruct (decide (k0 = k)) as [->|Hne]; simpl.
    + by apply NoDup_cons.
    + apply NoDup_cons. split; [|by apply IH].
      rewrite keys_set. intros [?|?]; [done | by apply Hk0].
Qed.

Lemma set_same k v d : PyDict.get k d = Some v → PyDict.set k v d = d.
Proof.
  induction d as [|[k0 v0] d IH]; simpl; [done|].
  destruct (decide (k0 = k)) as [->|Hne]; [by intros [= ->]|].
  intros Hget. by rewrite IH.
Qed.

Lemma get_Some_key k v d : PyDict.get k d = Some v → k ∈ d.*1.
Proof.
  intros Hget. destruct (decide (k ∈ d.*1)) as [|Hnot]; [done|].
  apply get_None_not_key in Hnot. congruence.
Qed.

End dict_set_props.

(** ** [resolve_path], once more *)

Lemma join_absolute_root (root p : string) :
  posixpath.isabs root = true → posixpath.isabs (posixpath.join root p) = true.
Proof.
  unfold posixpath.isabs, posixpath.join. intros Hroot.
  destruct (PyStr.startswith "/" p) eqn:Hp; [done|].
  assert (root ≠ "") by (by destruct root).
  destruct (_ || _); by rewrite startswith_app.
Qed.

Lemma join_no_char (c : ascii) (root p : string) :
  c ≠ "/"%char →
  PyStr.has_char c root = false → PyStr.has_char c p = false →
  PyStr.has_char c (posixpath.join root p) = false.
Proof.
  intros Hc Hroot Hp. unfold posixpath.join.
  destruct (PyStr.startswith "/" p); [done|].
  destruct (_ || _); rewrite !has_char_app, ?Hroot, ?Hp; [done|].
  change (PyStr.has_char c "/") with (Ascii.eqb "/" c || false).
  apply Ascii.eqb_neq in Hc. rewrite Ascii.eqb_sym in Hc. by rewrite Hc.
Qed.

(** X1. Under a root that is absolute and has no quote character, what
    [resolve_path] returns with the default [move_abs_paths] is an absolute
    path that [resolve_path] maps to itself. *)
Theorem resolve_path_idempotent (self : MFFileMgmt) (path : path_arg)
    (last_loaded_path : bool) (root r : string) :
  get_sim_path self last_loaded_path = Some root →
  posixpath.isabs root = true →
  PyStr.has_char "'" root = false →
  PyStr.has_char "034" root = false →
  resolve_path self path last_loaded_path false = Ok (Some r) →
  posixpath.isabs r = true
  ∧ resolve_path self (PathStr r) last_loaded_path false = Ok (Some r).
Proof.
  intros Hroot Habs Hq1 Hq2 Hres.
  destruct (unquoted_no_quotes path) as [Hp1 Hp2].
  assert (posixpath.isabs r = true
          ∧ PyStr.has_char "'" r = false ∧ PyStr.has_char "034" r = false)
    as (Hr & Hr1 & Hr2).
  { unfold resolve_path in Hres.
    destruct (posixpath.isabs (unquoted path)) eqn:Hp.
    - injection Hres as <-. done.
    - rewrite Hroot in Hres. simpl in Hres. injection Hres as <-.
      split_and!; [by apply join_absolute_root | by apply join_no_char..]. }
  split; [done|].
  unfold resolve_path, unquoted.
  rewrite (remove_char_absent "'" r Hr1), (remove_char_absent "034" r Hr2).
  by rewrite Hr.
Qed.

Lemma resolve_path_idempotent_witness :
  resolve_path (MFFileMgmt_init "/home/sim") (PathStr "/home/sim/ext/'a b.dat'")
    false false
  = Ok (Some "/home/sim/ext/a b.dat").
Proof.
  apply (resolve_path_idempotent (MFFileMgmt_init "/home/sim")
           (PathStr "ext/'a b.dat'") false "/home/sim" "/home/sim/ext/a b.dat");
    reflexivity.
Defined.

(** A root with a quote character is not a fixed point: the second
    resolution strips the quote from the root as well. *)
Example resolve_path_quoted_root :
  resolve_path (MFFileMgmt_init "/o'neil") (PathStr "a.dat") false false
    = Ok (Some "/o'neil/a.dat")
  ∧ resolve_path (MFFileMgmt_init "/o'neil") (PathStr "/o'neil/a.dat") false false
    = Ok (Some "/oneil/a.dat").
Proof. split; reflexivity. Qed.

(** ** Snapshots *)

(** X2. Right after [set_last_accessed_path], resolving against the
    snapshot and against the current state agree, for every path and flag,
    and so do the two model paths of every registered model. *)
Theorem snapshot_agrees_with_current (self : MFFileMgmt) :
  let loaded := set_last_accessed_path self in
  (∀ path move_abs_paths,
     resolve_path loaded path true move_abs_paths
     = resolve_path loaded path false move_abs_paths)
  ∧ (∀ key rel,
       model_relative_path self !! key = Some rel →
       get_model_path loaded key true = get_model_path loaded key false
       ∧ get_model_path loaded key true
         = Ok (posixpath.join (_sim_path self) rel)).
Proof.
  intros loaded. split.
  - intros path mv. reflexivity.
  - intros key rel Hkey. subst loaded. unfold get_model_path.
    cbn [set_last_accessed_path set_last_accessed_model_path
         _last_loaded_model_relative_path _last_loaded_sim_path
         model_relative_path _sim_path posixpath.join_opt].
    rewrite (lookup_union_Some_l _ _ _ _ Hkey). by rewrite Hkey.
Qed.

(** X3. The snapshot of the relative paths is merged, not replaced: a model
    that is registered now is recorded with its current path, and a model
    that only an earlier snapshot knew keeps the path recorded then. *)
Theorem snapshot_keeps_stale_models (self : MFFileMgmt) (key : string) :
  _last_loaded_model_relative_path (set_last_accessed_path self) !! key
  = match model_relative_path self !! key with
    | Some rel => Some rel
    | None => _last_loaded_model_relative_path self !! key
    end
  ∧ (∀ rel, model_relative_path self !! key = None →
            _last_loaded_model_relative_path self !! key = Some rel →
            get_model_path (set_last_accessed_path self) key true
              = Ok (posixpath.join (_sim_path self) rel)
            ∧ get_model_path (set_last_accessed_path self) key false
              = Ok (_sim_path self)).
Proof.
  split.
  - cbn [set_last_accessed_path set_last_accessed_model_path
         _last_loaded_model_relative_path model_relative_path].
    rewrite lookup_union. by destruct (_ !! key), (_ !! key).
  - intros rel Hnow Hthen. unfold get_model_path.
    cbn [set_last_accessed_path set_last_accessed_model_path
         _last_loaded_model_relative_path _last_loaded_sim_path
         model_relative_path _sim_path].
    by rewrite lookup_union, Hnow, Hthen.
Qed.

(** ** [copy_files], once more *)

Section copy_files_more.
Context {World : Type} `{FileSystem World}.

Lemma copy_files_body_same_root (self : MFFileMgmt) (flag : bool)
    (f : MFFilePath) (w : World) (num : nat) :
  _last_loaded_sim_path self = Some (_sim_path self) →
  copy_files_body self flag f w num = (w, Ok num).
Proof.
  intros Hsame. unfold copy_files_body, resolve_path, get_sim_path.
  rewrite Hsame.
  destruct (posixpath.isabs (unquoted (PathFile f))); simpl.
  - destruct (_ && _); [|done]. by rewrite String.eqb_refl.
  - destruct (_ && _); [|done]. by rewrite String.eqb_refl.
Qed.

(** X4. [copy_files] copies nothing, leaves the file system as it is and
    returns [0] when no snapshot was ever taken, and also when the root is
    still the one of the snapshot, whatever files are tracked. *)
Theorem copy_files_nothing_to_move (self : MFFileMgmt) (flag : bool) (w : World) :
  _last_loaded_sim_path self = None
  ∨ _last_loaded_sim_path self = Some (_sim_path self) →
  copy_files self flag w = (w, Ok 0).
Proof.
  intros [Hnone|Hsame]; unfold copy_files.
  - by rewrite Hnone.
  - rewrite Hsame.
    generalize (PyDict.values (existing_file_dict self)) as files.
    generalize 0 as num.
    intros num files. revert num.
    induction files as [|f files IH]; intros num; simpl; [done|].
    by rewrite copy_files_body_same_root.
Qed.



End copy_files_more.

Lemma copy_files_nothing_to_move_witness :
  copy_files (set_last_accessed_path (add_ext_file (MFFileMgmt_init "/old") "a.dat" "gwf1"))
    false moved_disk
  = (moved_disk, Ok 0).
Proof.
  apply (copy_files_nothing_to_move
           (set_last_accessed_path (add_ext_file (MFFileMgmt_init "/old") "a.dat" "gwf1"))
           false moved_disk).
  right. reflexivity.
Defined.

(** ** [add_ext_file] *)

(** X6. [add_ext_file] leaves a record under the path that lists the model,
    keeps the keys distinct and every other record as it was, and doing it
    a second time changes nothing. *)
Theorem add_ext_file_registers (self : MFFileMgmt) (path model : string) :
  let added := add_ext_file self path model in
  (∃ f, PyDict.get path (existing_file_dict added) = Some f
        ∧ is_Some (model_name f !! model))
  ∧ (∀ other, other ≠ path →
       PyDict.get other (existing_file_dict added)
       = PyDict.get other (existing_file_dict self))
  ∧ (PyDict.wf (existing_file_dict self) → PyDict.wf (existing_file_dict added))
  ∧ add_ext_file added path model = added.
Proof.
  intros added. subst added. unfold add_ext_file.
  destruct (PyDict.get path (existing_file_dict self)) as [f|] eqn:Hget;
    [destruct (model_name f !! model) as [n|] eqn:Hmodel|];
    cbn [existing_file_dict].
  - split_and!.
    + exists f. by rewrite Hget, Hmodel.
    + done.
    + done.
    + by rewrite Hget, Hmodel.
  - split_and!.
    + eexists. rewrite get_set_eq. split; [done|]. simpl.
      rewrite lookup_insert_eq. by eexists.
    + intros other Hother. by rewrite get_set_ne.
    + apply wf_set.
    + rewrite get_set_eq. cbn [model_name]. by rewrite lookup_insert_eq.
  - split_and!.
    + eexists. rewrite get_set_eq. split; [done|]. simpl.
      rewrite lookup_singleton_eq. by eexists.
    + intros other Hother. by rewrite get_set_ne.
    + apply wf_set.
    + rewrite get_set_eq. unfold MFFilePath_init. cbn [model_name].
      by rewrite lookup_singleton_eq.
Qed.

(** ** [unique_file_name], once more *)

Lemma build_file_longer (file_name : string) (num : nat) :
  String.length file_name < String.length (_build_file file_name num).
Proof.
  rewrite build_file_eq.
  rewrite <- (splitext_app file_name) at 1.
  rewrite !str_app_length. simpl. lia.
Qed.

(** X7. Whatever [unique_file_name] returns is not in the lookup and is
    never the file name itself, even when the file name is free: a name not
    in use still gets the suffix ["_0"]. *)
Theorem unique_file_name_fresh (fuel : nat) (file_name : string)
    (lookup : list string) (r : string) :
  unique_file_name fuel file_name lookup = Some r →
  (r ∉ lookup) ∧ r ≠ file_name
  ∧ (_build_file file_name 0 ∉ lookup → r = _build_file file_name 0).
Proof.
  unfold unique_file_name. intros Hrun.
  assert (∃ n, r = _build_file file_name n ∧ r ∉ lookup) as (n & -> & Hfree).
  { revert Hrun. generalize 0 as num.
    induction fuel as [|fuel IH]; intros num; simpl; [done|].
    case_bool_decide as Hin; [apply IH|].
    intros [= <-]. by exists num. }
  split_and!; [done | |].
  - intros Heq. pose proof (build_file_longer file_name n) as Hlen.
    rewrite Heq in Hlen. lia.
  - intros Hzero. destruct fuel as [|fuel]; simpl in Hrun; [done|].
    rewrite bool_decide_eq_false_2 in Hrun by done. by injection Hrun as <-.
Qed.

Lemma unique_file_name_fresh_witness :
  ("head_0.txt" ∉ ["head_1.txt"]) ∧ "head_0.txt" ≠ "head.txt".
Proof.
  destruct (unique_file_name_fresh 1 "head.txt" ["head_1.txt"] "head_0.txt" eq_refl)
    as (Hfree & Hother & _).
  by split.
Defined.

(** ** [add_package] and [get_package] *)

(** X8. On a container whose index keys are all in lower case, as they are
    in a new container, [add_package] does not raise and leaves the keys in
    lower case; so no sequence of additions to a new container raises. *)
Theorem add_package_total_on_lower_keys {V : Type} (self : PackageContainer V)
    (package : MFPackage) :
  lower_keys (PackageContainer_init (mfdata self))
  ∧ (lower_keys self →
     ∃ self', add_package self package = Ok self'
              ∧ lower_keys self'
              ∧ packagelist self' = packagelist self ++ [package]
              ∧ mfdata self' = mfdata self).
Proof.
  split.
  { split_and!; intros k [x Hx]; simpl in Hx; by rewrite lookup_empty in Hx. }
  intros (Htype & Hname & Hfile). unfold add_package.
  set (t := PyStr.lower (package_type package)).
  assert (∃ bucket,
            match package_type_dict self !! package_type package with
            | Some _ => package_type_dict self
            | None => <[t:=[]]> (package_type_dict self)
            end !! t = Some bucket) as [bucket Hbucket].
  { destruct (package_type_dict self !! package_type package) as [b|] eqn:Hb.
    - exists b. subst t. by rewrite (Htype _ (mk_is_Some _ _ Hb)).
    - exists []. by rewrite lookup_insert_eq. }
  rewrite Hbucket. eexists. split; [done|].
  split_and!; [|done|done].
  split_and!; intros k [x Hx]; simpl in Hx.
  - destruct (decide (t = k)) as [<-|Hne]; [apply lower_idemp|].
    rewrite lookup_insert_ne in Hx by done.
    destruct (package_type_dict self !! package_type package).
    + by apply Htype.
    + rewrite lookup_insert_ne in Hx by done. by apply Htype.
  - destruct (package_name package) as [n|]; [|by apply Hname].
    destruct (decide (PyStr.lower n = k)) as [<-|Hne]; [apply lower_idemp|].
    rewrite lookup_insert_ne in Hx by done. by apply Hname.
  - destruct (filename package) as [f|]; [|by apply Hfile].
    destruct (decide (PyStr.lower f = k)) as [<-|Hne]; [apply lower_idemp|].
    rewrite lookup_insert_ne in Hx by done. by apply Hfile.
Qed.

(** X9. A package added with a name is found by that name in any letter
    case, whatever else the container holds, unless the search is by type
    only. *)
Theorem get_package_finds_added_name {V : Type} (self self' : PackageContainer V)
    (package : MFPackage) (n query : string) (name_only : bool) :
  add_package self package = Ok self' →
  package_name package = Some n →
  PyStr.lower query = PyStr.lower n →
  get_package self' (Some query) false name_only = FoundPackage package.
Proof.
  intros Hadd Hn Hquery. unfold add_package in Hadd. rewrite Hn in Hadd.
  destruct (_ !! PyStr.lower (package_type package)); [|done].
  injection Hadd as <-. unfold get_package; simpl.
  by rewrite Hquery, lookup_insert_eq.
Qed.

Lemma get_package_finds_added_name_witness :
  ∃ self',
    add_package (PackageContainer_init example_store) example_wel = Ok self'
    ∧ get_package self' (Some "Wel-1") false false = FoundPackage example_wel.
Proof.
  eexists. split; [reflexivity|].
  by apply (get_package_finds_added_name
              (PackageContainer_init example_store) _ example_wel "WEL-1" "Wel-1" false).
Defined.

(** X10. After a package of a lower-case type is added, a search by type
    only for that type, in any letter case, gives the package itself when
    it is the only one of its type and the whole bucket, the new package
    last, otherwise. *)
Theorem get_package_by_type_after_add {V : Type} (self self' : PackageContainer V)
    (package : MFPackage) (query : string) :
  PyStr.lower (package_type package) = package_type package →
  add_package self package = Ok self' →
  PyStr.lower query = package_type package →
  get_package self' (Some query) true false
  = match package_type_dict self !! package_type package with
    | None | Some [] => FoundPackage package
    | Some bucket => FoundList (bucket ++ [package])
    end.
Proof.
  intros Hlower Hadd Hquery. unfold add_package in Hadd. rewrite Hlower in Hadd.
  unfold get_package. rewrite Hquery.
  destruct (package_type_dict self !! package_type package) as [bucket|] eqn:Hb.
  - rewrite Hb in Hadd. injection Hadd as <-. simpl.
    rewrite lookup_insert_eq.
    case_match; by destruct bucket as [|? [|? ?]].
  - rewrite lookup_insert_eq in Hadd. injection Hadd as <-. simpl.
    rewrite lookup_insert_eq. by case_match.
Qed.

Lemma get_package_by_type_after_add_witness :
  ∃ self',
    add_package (PackageContainer_init example_store) example_wel = Ok self'
    ∧ get_package self' (Some "WEL") true false = FoundPackage example_wel.
Proof.
  eexists. split; [reflexivity|].
  by apply (get_package_by_type_after_add
              (PackageContainer_init example_store) _ example_wel "WEL").
Defined.

(** X11. With both [type_only] and [name_only] set, [get_package] finds
    nothing for any name in any container. *)
Theorem get_package_both_flags {V : Type} (self : PackageContainer V)
    (name : string) :
  get_package self (Some name) true true = NotFound.
Proof.
  unfold get_package.
  destruct (package_name_dict self !! PyStr.lower name);
    destruct (package_type_dict self !! PyStr.lower name);
    by destruct (package_filename_dict self !! PyStr.lower name).
Qed.

(** The test of the partial-name loop, as a statement about prefixes. *)
Lemma partial_test_prefix (n name : string) :
  String.eqb
    (PyStr.lower
       (if String.length name <? String.length (PyStr.lower n)
        then PyStr.take (String.length name) (PyStr.lower n)
        else PyStr.lower n))
    (PyStr.lower name) = true
  ↔ ∃ rest, PyStr.lower n = PyStr.lower name +:+ rest.
Proof.
  rewrite String.eqb_eq. destruct (Nat.ltb_spec (String.length name)
                                     (String.length (PyStr.lower n))) as [Hlt|Hge].
  - rewrite lower_take, lower_idemp. split.
    + intros Htake. exists (PyStr.drop (String.length name) (PyStr.lower n)).
      by rewrite <- Htake, take_drop_str.
    + intros [rest ->]. by rewrite <- (lower_length name), take_app_str.
  - rewrite lower_idemp. split.
    + intros ->. exists "". by rewrite str_app_nil_r.
    + intros [rest Hrest]. rewrite Hrest.
      apply (f_equal String.length) in Hrest.
      rewrite str_app_length, !lower_length in Hrest.
      rewrite lower_length in Hge.
      destruct rest; [by rewrite str_app_nil_r | simpl in Hrest; lia].
Qed.

(** X12. The partial-name search of [get_package] returns the first package
    of the list whose lowered name begins with the lowered query, and finds
    nothing exactly when no named package has such a name. *)
Theorem find_partial_first_prefix (name : string) (packages : list MFPackage) :
  (∀ package,
     find_partial name packages = FoundPackage package →
     ∃ before after n rest,
       packages = before ++ package :: after
       ∧ package_name package = Some n
       ∧ PyStr.lower n = PyStr.lower name +:+ rest
       ∧ ∀ q m rest', q ∈ before → package_name q = Some m →
                      PyStr.lower m ≠ PyStr.lower name +:+ rest')
  ∧ (find_partial name packages = NotFound ↔
     ∀ q m rest', q ∈ packages → package_name q = Some m →
                  PyStr.lower m ≠ PyStr.lower name +:+ rest')
  ∧ (∀ l, find_partial name packages ≠ FoundList l).
Proof.
  induction packages as [|pp packages (IHfound & IHnone & IHlist)]; simpl.
  { split_and!; [done | | done]. split; [|done].
    intros _ q m rest' Hq. by apply elem_of_nil in Hq. }
  destruct (package_name pp) as [n|] eqn:Hn.
  - destruct (String.eqb _ _) eqn:Htest.
    + apply partial_test_prefix in Htest as [rest Hrest].
      split_and!; [| |done].
      * intros package [= <-]. exists [], packages, n, rest.
        split_and!; [done..|]. intros q m rest' Hq. by apply elem_of_nil in Hq.
      * split; [done|]. intros Hall. exfalso.
        eapply (Hall pp n rest); [apply list_elem_of_here | done | done].
    + assert (∀ rest', PyStr.lower n ≠ PyStr.lower name +:+ rest') as Hno.
      { intros rest' Hrest. apply not_true_iff_false in Htest. apply Htest.
        apply partial_test_prefix. by exists rest'. }
      split_and!; [| |done].
      * intros package (before & after & m & rest & -> & Hm & Hrest & Hfirst)%IHfound.
        exists (pp :: before), after, m, rest. split_and!; [done..|].
        intros q m' rest' [->|Hq]%elem_of_cons Hq'.
        -- rewrite Hn in Hq'. injection Hq' as <-. apply Hno.
        -- by eapply Hfirst.
      * rewrite IHnone. split.
        -- intros Hall q m rest' [->|Hq]%elem_of_cons Hq'.
           ++ rewrite Hn in Hq'. injection Hq' as <-. apply Hno.
           ++ by eapply Hall.
        -- intros Hall q m rest' Hq. apply Hall. by apply list_elem_of_further.
  - split_and!; [| |done].
    + intros package (before & after & m & rest & -> & Hm & Hrest & Hfirst)%IHfound.
      exists (pp :: before), after, m, rest. split_and!; [done..|].
      intros q m' rest' [->|Hq]%elem_of_cons Hq'; [congruence | by eapply Hfirst].
    + rewrite IHnone. split.
      * intros Hall q m rest' [->|Hq]%elem_of_cons Hq'; [congruence | by eapply Hall].
      * intros Hall q m rest' Hq. apply Hall. by apply list_elem_of_further.
Qed.

(** ** [remove_package], once more *)

(** X13. After [remove_package] nothing is indexed under the lowered name
    or the lowered file name of the package, whichever package was indexed
    there before, and its type has no empty bucket; the other keys of the
    name and type indexes are as before. *)
Theorem remove_package_clears_indexes {V : Type} (self self' : PackageContainer V)
    (package : MFPackage) :
  remove_package self package = Ok self' →
  (∀ n, package_name package = Some n →
        package_name_dict self' !! PyStr.lower n = None)
  ∧ (∀ f, filename package = Some f →
          package_filename_dict self' !! PyStr.lower f = None)
  ∧ package_type_dict self' !! PyStr.lower (package_type package) ≠ Some []
  ∧ (∀ k, (∀ n, package_name package = Some n → k ≠ PyStr.lower n) →
          package_name_dict self' !! k = package_name_dict self !! k)
  ∧ (∀ k, k ≠ PyStr.lower (package_type package) →
          package_type_dict self' !! k = package_type_dict self !! k).
Proof.
  unfold remove_package. intros Hrun.
  destruct (delete_keys _ _) as [data|e]; [|done]. simpl in Hrun.
  injection Hrun as <-. cbn [package_name_dict package_filename_dict package_type_dict].
  split_and!.
  - intros n ->. case_bool_decide as Hin; [apply lookup_delete_eq|].
    by apply eq_None_not_Some.
  - intros f ->. case_bool_decide as Hin; [apply lookup_delete_eq|].
    by apply eq_None_not_Some.
  - destruct (package_type_dict self !! _) as [bucket|] eqn:Hb; [|by rewrite Hb].
    destruct (length _ =? 0) eqn:Hlen.
    + by rewrite lookup_delete_eq.
    + rewrite lookup_insert_eq. intros [= Hnil]. by rewrite Hnil in Hlen.
  - intros k Hk. destruct (package_name package) as [n|]; [|done].
    case_bool_decide; [|done]. rewrite lookup_delete_ne; [done|].
    intros <-. by eapply Hk.
  - intros k Hk. destruct (package_type_dict self !! _) as [bucket|]; [|done].
    destruct (length _ =? 0).
    + by rewrite lookup_delete_ne.
    + by rewrite lookup_insert_ne.
Qed.

Example two_wells_by_additions :
  (added ← add_package (PackageContainer_init example_store) example_wel ;;;
   add_package added other_wel) = Ok two_wells.
Proof. reflexivity. Qed.

Lemma remove_package_clears_indexes_witness :
  package_name_dict two_wells !! "wel-1" = Some other_wel
  ∧ ∃ self',
      remove_package two_wells example_wel = Ok self'
      ∧ package_name_dict self' !! "wel-1" = None
      ∧ package_filename_dict self' !! "gwf1.wel" = None
      ∧ package_type_dict self' !! "wel" ≠ Some []
      ∧ package_filename_dict self' !! "gwf1_b.wel" = Some other_wel.
Proof.
  split; [reflexivity|].
  destruct (remove_package two_wells example_wel) as [self'|e] eqn:Hrun;
    [|by vm_compute in Hrun].
  destruct (remove_package_clears_indexes two_wells self' example_wel Hrun)
    as (Hname & Hfile & Htype & _ & _).
  exists self'. split_and!.
  - reflexivity.
  - exact (Hname "WEL-1" eq_refl).
  - exact (Hfile "gwf1.wel" eq_refl).
  - exact Htype.
  - vm_compute in Hrun. injection Hrun as <-. reflexivity.
Defined.

(** X14. A package whose path is empty owns every key: on a store with
    distinct keys, removing it empties the store. *)
Theorem remove_package_empty_path_clears_store {V : Type}
    (self : PackageContainer V) (package : MFPackage) :
  PyDict.wf (mfdata self) →
  path package = [] →
  ∃ self', remove_package self package = Ok self' ∧ mfdata self' = [].
Proof.
  intros Hwf Hpath.
  destruct (remove_package_mfdata self package Hwf) as (self' & Hrun & Hdata).
  exists self'. split; [done|]. rewrite Hdata, Hpath. clear.
  induction (mfdata self) as [|kv d IH]; [done|]. simpl. done.
Qed.

Lemma remove_package_empty_path_clears_store_witness :
  ∃ self',
    remove_package (PackageContainer_init example_store)
      {| oid := 9; package_name := None; filename := None;
         package_type := "nam"; path := [] |} = Ok self'
    ∧ mfdata self' = [].
Proof.
  apply (remove_package_empty_path_clears_store
           (PackageContainer_init example_store)).
  - exact example_store_wf.
  - reflexivity.
Defined.

Lemma remove_first_app_last {A} `{EqDecision A} (x : A) (l : list A) :
  x ∉ l → remove_first x (l ++ [x]) = l.
Proof.
  induction l as [|y l IH]; simpl.
  - intros _. by rewrite decide_True.
  - intros [Hne Hl]%not_elem_of_cons. rewrite decide_False by done.
    by rewrite IH.
Qed.

(** X15. Adding a package and removing it again restores the list and the
    three indexes, provided the package is new to the container: not in the
    list, its lowered name and file name not indexed, its type in lower
    case, and the bucket of its type, if there is one, not empty and
    without it. *)
Theorem add_then_remove_restores_indexes {V : Type} (self : PackageContainer V)
    (package : MFPackage) :
  PyDict.wf (mfdata self) →
  PyStr.lower (package_type package) = package_type package →
  package ∉ packagelist self →
  (∀ n, package_name package = Some n →
        package_name_dict self !! PyStr.lower n = None) →
  (∀ f, filename package = Some f →
        package_filename_dict self !! PyStr.lower f = None) →
  (∀ bucket, package_type_dict self !! package_type package = Some bucket →
             bucket ≠ [] ∧ package ∉ bucket) →
  ∃ added removed,
    add_package self package = Ok added
    ∧ remove_package added package = Ok removed
    ∧ packagelist removed = packagelist self
    ∧ package_type_dict removed = package_type_dict self
    ∧ package_name_dict removed = package_name_dict self
    ∧ package_filename_dict removed = package_filename_dict self.
Proof.
  intros Hwf Hlower Hnew Hname Hfile Hbucket.
  assert (∃ added, add_package self package = Ok added
                   ∧ mfdata added = mfdata self
                   ∧ packagelist added = packagelist self ++ [package]
                   ∧ package_name_dict added
                     = match package_name package with
                       | Some n => <[PyStr.lower n := package]> (package_name_dict self)
                       | None => package_name_dict self
                       end
                   ∧ package_filename_dict added
                     = match filename package with
                       | Some f => <[PyStr.lower f := package]> (package_filename_dict self)
                       | None => package_filename_dict self
                       end
                   ∧ package_type_dict added
                     = <[package_type package :=
                           default [] (package_type_dict self !! package_type package)
                           ++ [package]]> (package_type_dict self))
    as (added & Hadd & Hdata & Hlist & Hnames & Hfiles & Htypes).
  { unfold add_package. rewrite Hlower.
    destruct (package_type_dict self !! package_type package) as [bucket|] eqn:Hb.
    - rewrite Hb. eexists. by split_and!.
    - rewrite lookup_insert_eq. eexists. split_and!; try done.
      simpl. by rewrite insert_insert_eq. }
  destruct (remove_package_mfdata added package) as (removed & Hrun & _).
  { by rewrite Hdata. }
  exists added, removed. split_and!; [done | done | | | |].
  - unfold remove_package in Hrun.
    destruct (delete_keys _ _) as [data|e]; [|done]. injection Hrun as <-.
    cbn [packagelist]. rewrite Hlist.
    rewrite bool_decide_eq_true_2 by (apply elem_of_app; right; apply list_elem_of_here).
    by apply remove_first_app_last.
  - unfold remove_package in Hrun.
    destruct (delete_keys _ _) as [data|e]; [|done]. injection Hrun as <-.
    cbn [package_type_dict]. rewrite Hlower, Htypes, lookup_insert_eq.
    rewrite bool_decide_eq_true_2 by (apply elem_of_app; right; apply list_elem_of_here).
    destruct (package_type_dict self !! package_type package) as [bucket|] eqn:Hb;
      simpl.
    + destruct (Hbucket bucket eq_refl) as [Hne Hnotin].
      rewrite remove_first_app_last by done.
      destruct bucket as [|q bucket]; [done|]. simpl.
      rewrite insert_insert_eq. by apply insert_id.
    + rewrite decide_True by done. simpl. by apply delete_insert_id.
  - unfold remove_package in Hrun.
    destruct (delete_keys _ _) as [data|e]; [|done]. injection Hrun as <-.
    cbn [package_name_dict]. rewrite Hnames.
    destruct (package_name package) as [n|] eqn:Hn; [|done].
    rewrite lookup_insert_eq.
    rewrite bool_decide_eq_true_2 by (by eexists).
    apply delete_insert_id. by apply Hname.
  - unfold remove_package in Hrun.
    destruct (delete_keys _ _) as [data|e]; [|done]. injection Hrun as <-.
    cbn [package_filename_dict]. rewrite Hfiles.
    destruct (filename package) as [f|] eqn:Hf; [|done].
    rewrite lookup_insert_eq.
    rewrite bool_decide_eq_true_2 by (by eexists).
    apply delete_insert_id. by apply Hfile.
Qed.

Lemma add_then_remove_restores_indexes_witness :
  ∃ added removed,
    add_package (PackageContainer_init example_store) example_wel = Ok added
    ∧ remove_package added example_wel = Ok removed
    ∧ packagelist removed = [].
Proof.
  destruct (add_then_remove_restores_indexes
              (PackageContainer_init example_store) example_wel)
    as (added & removed & Hadd & Hremove & Hlist & _).
  - exact example_store_wf.
  - reflexivity.
  - apply not_elem_of_nil.
  - intros n _. apply lookup_empty.
  - intros f _. apply lookup_empty.
  - intros bucket Hb. simpl in Hb. by rewrite lookup_empty in Hb.
  - by exists added, removed.
Defined.

(** ** [_rename_package], once more *)

Lemma fix_keys_succeeds {V : Type} (path : list ident) (new_name : string)
    (items : list (list ident)) (d : list (list ident * V)) :
  NoDup items → (∀ key, key ∈ items → key ∈ d.*1) →
  ∃ d', fix_keys path new_name items d = Ok d'.
Proof.
  revert d. induction items as [|key items IH]; intros d Hnodup Hin; simpl.
  - by eexists.
  - apply NoDup_cons in Hnodup as [Hkey Hnodup].
    unfold PyDict.pop.
    destruct (PyDict.get key d) as [v|] eqn:Hget.
    + simpl. apply IH; [done|]. intros key' Hkey'.
      apply keys_set. right. apply elem_of_keys_remove. split.
      * by intros ->.
      * apply Hin. by apply list_elem_of_further.
    + apply get_None_not_key in Hget. destruct Hget. apply Hin, list_elem_of_here.
Qed.

(** X16. On a store with distinct keys [_rename_package] does not raise:
    every [pop] finds its key.  Afterwards the lowered new name is indexed
    to the package and the lowered old name, if different, is indexed to
    nothing; the package list, the type index and the file-name index are
    untouched. *)
Theorem rename_package_name_index {V : Type} (self : PackageContainer V)
    (package : MFPackage) (new_name : string) :
  PyDict.wf (mfdata self) →
  ∃ self',
    _rename_package self package new_name = Ok self'
    ∧ package_name_dict self' !! PyStr.lower new_name = Some package
    ∧ (∀ n, package_name package = Some n →
            PyStr.lower n ≠ PyStr.lower new_name →
            package_name_dict self' !! PyStr.lower n = None)
    ∧ packagelist self' = packagelist self
    ∧ package_type_dict self' = package_type_dict self
    ∧ package_filename_dict self' = package_filename_dict self.
Proof.
  intros Hwf. unfold _rename_package.
  destruct (fix_keys_succeeds (path package) new_name
              (List.filter (is_subkey (path package)) (PyDict.keys (mfdata self)))
              (mfdata self)) as [d' Hd'].
  - by apply items_to_remove_nodup.
  - intros key [Hin _]%list_elem_of_In%filter_In. by apply list_elem_of_In.
  - rewrite Hd'. simpl. eexists. split; [done|]. simpl.
    split_and!; [apply lookup_insert_eq | | done..].
    intros n -> Hne. rewrite lookup_insert_ne by done.
    case_bool_decide as Hin; [apply lookup_delete_eq|].
    by apply eq_None_not_Some.
Qed.

Lemma rename_package_name_index_witness :
  ∃ self',
    _rename_package (PackageContainer_init example_store) example_wel "WEL-2"
      = Ok self'
    ∧ package_name_dict self' !! "wel-2" = Some example_wel.
Proof.
  destruct (rename_package_name_index (PackageContainer_init example_store)
              example_wel "WEL-2" example_store_wf)
    as (self' & Hrun & Hname & _).
  by exists self'.
Defined.

(** ** [_load_only_dict] and [_in_pkg_list] *)

Lemma load_only_keys (items : list string) (d0 : list (string * bool)) (k : string) :
  k ∈ (foldl (λ d item, PyDict.set (PyStr.lower item) true d) d0 items).*1
  ↔ k ∈ d0.*1 ∨ k ∈ PyStr.lower <$> items.
Proof.
  revert d0. induction items as [|item items IH]; intros d0; simpl.
  - rewrite elem_of_nil. tauto.
  - rewrite IH, keys_set, elem_of_cons. tauto.
Qed.

Lemma load_only_wf (items : list string) (d0 : list (string * bool)) :
  PyDict.wf d0 →
  PyDict.wf (foldl (λ d item, PyDict.set (PyStr.lower item) true d) d0 items).
Proof.
  revert d0. induction items as [|item items IH]; intros d0 Hwf; simpl; [done|].
  by apply IH, wf_set.
Qed.

(** X17. The dictionary that [_load_only_dict] builds from a list of names
    has distinct keys, all in lower case, and [_in_pkg_list] accepts against
    it every type code that equals one of the names up to letter case,
    whatever the package name. *)
Theorem load_only_admits_listed_types (items : list string) :
  ∃ d,
    _load_only_dict (LoadItems items) = inr (Some d)
    ∧ PyDict.wf d
    ∧ (∀ k, k ∈ d.*1 ↔ k ∈ PyStr.lower <$> items)
    ∧ (∀ item pkg_type pkg_name,
         item ∈ items → PyStr.lower pkg_type = PyStr.lower item →
         _in_pkg_list d (Some pkg_type) pkg_name = Ok true).
Proof.
  eexists. split; [reflexivity|]. split_and!.
  - apply load_only_wf. apply NoDup_nil_2.
  - intros k. rewrite load_only_keys, elem_of_nil. tauto.
  - intros item pkg_type pkg_name Hitem Hlower. unfold _in_pkg_list. simpl.
    rewrite Hlower. unfold PyDict.contains at 1.
    rewrite bool_decide_eq_true_2; [done|].
    apply load_only_keys. right. by apply list_elem_of_fmap_2.
Qed.

Lemma load_only_admits_listed_types_witness :
  ∃ d,
    _load_only_dict (LoadItems ["WEL"; "Riv"]) = inr (Some d)
    ∧ _in_pkg_list d (Some "wel") (Some "wel-1") = Ok true.
Proof.
  destruct (load_only_admits_listed_types ["WEL"; "Riv"])
    as (d & Hd & _ & _ & Hadmit).
  exists d. split; [done|].
  apply (Hadmit "WEL"); [apply list_elem_of_here | reflexivity].
Defined.

Lemma lower_hyphen (s : string) :
  PyStr.lower (String "-" s) = String "-" (PyStr.lower s).
Proof. reflexivity. Qed.

(** X18. When neither lowered input is a key of the rule set,
    [_in_pkg_list] raises instead of answering on three inputs: a type code
    that is [None] ([AttributeError]), the empty type code, and a type code
    that begins with a hyphen (both [IndexError], which the handler for
    [ValueError] does not catch). *)
Theorem in_pkg_list_raises (pkg_list : list (string * bool))
    (pkg_name : option string) :
  (∀ n, pkg_name = Some n → PyDict.contains (PyStr.lower n) pkg_list = false) →
  _in_pkg_list pkg_list None pkg_name = Raise (AttributeError "NoneType" "split")
  ∧ (PyDict.contains "" pkg_list = false →
     _in_pkg_list pkg_list (Some "") pkg_name = Raise IndexError)
  ∧ (∀ rest,
       PyDict.contains (PyStr.lower (String "-" rest)) pkg_list = false →
       _in_pkg_list pkg_list (Some (String "-" rest)) pkg_name = Raise IndexError).
Proof.
  intros Hname.
  assert (match PyStr.lower <$> pkg_name with
          | Some k => PyDict.contains k pkg_list
          | None => false
          end = false) as Hn.
  { destruct pkg_name as [n|]; simpl; [by apply Hname | done]. }
  unfold _in_pkg_list. split_and!.
  - simpl. by rewrite Hn.
  - intros Hempty. simpl. by rewrite Hempty, Hn.
  - intros rest Hrest. cbn [fmap option_fmap option_map].
    rewrite Hrest, Hn. rewrite lower_hyphen. reflexivity.
Qed.

Lemma in_pkg_list_raises_witness :
  _in_pkg_list [("gwf", true)] (Some "-gwf6") (Some "wel") = Raise IndexError.
Proof.
  refine (proj2 (proj2 (in_pkg_list_raises [("gwf", true)] (Some "wel") _)) "gwf6" _);
    [|reflexivity].
  intros n [= <-]. reflexivity.
Defined.

Lemma split_no_sep (c : ascii) (s : string) :
  PyStr.has_char c s = false → PyStr.split c s = [s].
Proof.
  induction s as [|a s IH]; simpl; [done|].
  intros [Hac Hs]%orb_false_elim. by rewrite Hac, IH.
Qed.

Lemma last_char_app (s : string) (d : ascii) :
  PyStr.last_char (s +:+ String d "") = Some d.
Proof.
  induction s as [|a s IH]; [done|]. rewrite str_app_cons. simpl.
  rewrite IH. by destruct (s +:+ String d "") eqn:Hs; [destruct s|].
Qed.

Lemma drop_last_app (s : string) (d : ascii) :
  PyStr.drop_last (s +:+ String d "") = s.
Proof.
  induction s as [|a s IH]; [done|]. rewrite str_app_cons. simpl.
  rewrite IH. by destruct (s +:+ String d "") eqn:Hs; [destruct s|].
Qed.

(** The test of one key, as a statement about the two lists of segments. *)
Lemma key_matches_Forall2 (pkg_type : list string) (key : string) :
  key_matches pkg_type key = true
  ↔ Forall2 (λ key_item pkg_item,
               key_item = pkg_item ∨ key_item = PyStr.drop_last pkg_item)
            (PyStr.split "-" key) pkg_type.
Proof.
  unfold key_matches. generalize (PyStr.split "-" key) as ks. intros ks.
  rewrite andb_true_iff, Nat.eqb_eq. revert pkg_type.
  induction ks as [|k ks IH]; intros [|p ps]; simpl.
  - split; [constructor | done].
  - split; [by intros [? _] | by intros ?%Forall2_nil_cons_inv].
  - split; [by intros [? _] | by intros ?%Forall2_cons_nil_inv].
  - rewrite Forall2_cons, <- IH, andb_true_iff.
    rewrite negb_true_iff, andb_false_iff, !negb_false_iff, !String.eqb_eq.
    split.
    + intros [Hlen [[?|?] Hall]]; split_and!; auto with lia.
    + intros [[?|?] [Hlen Hall]]; split_and!; auto with lia.
Qed.

(** X19. A type code made of a rule-set key without hyphen followed by one
    digit is accepted, in any letter case and whatever the package name:
    the version digit is dropped for the comparison. *)
Theorem in_pkg_list_versioned_type (pkg_list : list (string * bool))
    (pkg_type key : string) (digit : ascii) (version : nat)
    (pkg_name : option string) :
  PyStr.lower pkg_type = key +:+ String digit "" →
  PyStr.int_of_char digit = Some version →
  PyStr.has_char "-" key = false →
  key ∈ PyDict.keys pkg_list →
  _in_pkg_list pkg_list (Some pkg_type) pkg_name = Ok true.
Proof.
  intros Hlower Hdigit Hkey Hin. unfold _in_pkg_list.
  cbn [fmap option_fmap option_map]. rewrite Hlower.
  destruct (_ || _); [done|].
  assert (PyStr.has_char "-" (key +:+ String digit "") = false) as Hnosep.
  { rewrite has_char_app, Hkey. simpl.
    destruct (Ascii.eqb_spec digit "-") as [->|_]; [done|done]. }
  rewrite (split_no_sep _ _ Hnosep), last_char_app, Hdigit.
  f_equal. apply existsb_exists. exists key. split; [by apply list_elem_of_In|].
  apply key_matches_Forall2. rewrite (split_no_sep _ _ Hkey).
  apply Forall2_cons. split; [|constructor].
  right. by rewrite drop_last_app.
Qed.

Lemma in_pkg_list_versioned_type_witness :
  _in_pkg_list [("riv", true); ("gwf", true)] (Some "GWF6") None = Ok true.
Proof.
  apply (in_pkg_list_versioned_type _ "GWF6" "gwf" "6"%char 6 None);
    [reflexivity | reflexivity | reflexivity |].
  apply list_elem_of_further, list_elem_of_here.
Defined.

(** X20. When no lowered input is a key and the first segment of the type
    code ends in a digit, [_in_pkg_list] answers whether some key has as
    many hyphen-separated segments as the type code, each equal to the
    matching segment of the type code or to that segment without its last
    character, of whatever kind that character is. *)
Theorem in_pkg_list_segment_rule (pkg_list : list (string * bool))
    (pkg_type : string) (pkg_name : option string)
    (first : string) (rest : list string) (digit : ascii) (version : nat) :
  PyDict.contains (PyStr.lower pkg_type) pkg_list = false →
  (∀ n, pkg_name = Some n → PyDict.contains (PyStr.lower n) pkg_list = false) →
  PyStr.split "-" (PyStr.lower pkg_type) = first :: rest →
  PyStr.last_char first = Some digit →
  PyStr.int_of_char digit = Some version →
  ∃ answer,
    _in_pkg_list pkg_list (Some pkg_type) pkg_name = Ok answer
    ∧ (answer = true ↔
       ∃ key, key ∈ PyDict.keys pkg_list
              ∧ Forall2 (λ key_item pkg_item,
                           key_item = pkg_item
                           ∨ key_item = PyStr.drop_last pkg_item)
                        (PyStr.split "-" key) (first :: rest)).
Proof.
  intros Htype Hname Hsplit Hlast Hdigit. unfold _in_pkg_list.
  cbn [fmap option_fmap option_map]. rewrite Htype.
  assert (match PyStr.lower <$> pkg_name with
          | Some k => PyDict.contains k pkg_list
          | None => false
          end = false) as ->.
  { destruct pkg_name as [n|]; simpl; [by apply Hname | done]. }
  simpl. rewrite Hsplit, Hlast, Hdigit. eexists. split; [done|].
  rewrite existsb_exists. split.
  - intros (key & Hin & Hmatch). exists key.
    split; [by apply list_elem_of_In | by apply key_matches_Forall2].
  - intros (key & Hin & Hmatch). exists key.
    split; [by apply list_elem_of_In | by apply key_matches_Forall2].
Qed.

Lemma in_pkg_list_segment_rule_witness :
  ∃ answer,
    _in_pkg_list [("gwf-gwf", true)] (Some "gwf6-gwfx") None = Ok answer
    ∧ answer = true.
Proof.
  destruct (in_pkg_list_segment_rule [("gwf-gwf", true)] "gwf6-gwfx" None
              "gwf6" ["gwfx"] "6"%char 6)
    as (answer & Hrun & Hanswer); try reflexivity; [done|].
  exists answer. split; [done|]. apply Hanswer. exists "gwf-gwf".
  split; [apply list_elem_of_here|].
  repeat (apply Forall2_cons; split; [by right|]). constructor.
Defined.

(** ** The store and the indexes under removal *)

Lemma is_subkey_of_prefix (path key : list ident) :
  key `prefix_of` path → is_subkey path key = true.
Proof.
  intros [rest ->]. induction key as [|k key IH]; simpl; [by destruct rest|].
  by rewrite decide_True.
Qed.

(** X21. [remove_package] also deletes the keys above the package: every
    key that is a prefix of the package path, the empty key and the key of
    its model among them, is gone from the store afterwards. *)
Theorem remove_package_deletes_ancestor_keys {V : Type}
    (self : PackageContainer V) (package : MFPackage) (key : list ident) :
  PyDict.wf (mfdata self) →
  key `prefix_of` path package →
  ∃ self',
    remove_package self package = Ok self'
    ∧ PyDict.get key (mfdata self') = None.
Proof.
  intros Hwf Hprefix.
  destruct (remove_package_mfdata self package Hwf) as (self' & Hrun & Hdata).
  exists self'. split; [done|].
  rewrite Hdata, (get_filter (λ k, negb (is_subkey (path package) k))).
  by rewrite is_subkey_of_prefix.
Qed.

Lemma remove_package_deletes_ancestor_keys_witness :
  ∃ self',
    remove_package
      (PackageContainer_init (([IStr "gwf1"], "model data") :: example_store))
      example_wel = Ok self'
    ∧ PyDict.get [IStr "gwf1"] (mfdata self') = None.
Proof.
  apply (remove_package_deletes_ancestor_keys
           (PackageContainer_init (([IStr "gwf1"], "model data") :: example_store))
           example_wel [IStr "gwf1"]).
  - apply NoDup_cons. split; [|exact example_store_wf].
    simpl. rewrite !not_elem_of_cons. split_and!; try discriminate.
    apply not_elem_of_nil.
  - by exists [IStr "wel"; IStr "WEL-1"].
Defined.

Lemma elem_of_remove_first {A} `{EqDecision A} (x y : A) (l : list A) :
  y ∈ remove_first x l → y ∈ l.
Proof.
  induction l as [|z l IH]; simpl; [done|].
  destruct (decide (z = x)) as [->|Hne].
  - apply list_elem_of_further.
  - intros [->|Hy]%elem_of_cons; [apply list_elem_of_here|].
    by apply list_elem_of_further, IH.
Qed.

Lemma elem_of_remove_first_ne {A} `{EqDecision A} (x y : A) (l : list A) :
  y ≠ x → y ∈ l → y ∈ remove_first x l.
Proof.
  intros Hne. induction l as [|z l IH]; simpl; [done|].
  intros [->|Hy]%elem_of_cons.
  - rewrite decide_False by done. apply list_elem_of_here.
  - destruct (decide (z = x)); [done|]. by apply list_elem_of_further, IH.
Qed.

Lemma not_elem_of_remove_first {A} `{EqDecision A} (x : A) (l : list A) :
  NoDup l → x ∉ remove_first x l.
Proof.
  induction l as [|z l IH]; simpl; [intros _; apply not_elem_of_nil|].
  intros [Hz Hl]%NoDup_cons. destruct (decide (z = x)) as [->|Hne]; [done|].
  apply not_elem_of_cons. split; [done | by apply IH].
Qed.

(** X22. [remove_package] keeps the type index complete when no package is
    in the list twice: afterwards the package is not in the list, every
    package still in the list is in the bucket of its lowered type, and the
    index keys stay in lower case. *)
Theorem remove_package_keeps_type_index {V : Type}
    (self self' : PackageContainer V) (package : MFPackage) :
  NoDup (packagelist self) →
  indexed_by_type self →
  remove_package self package = Ok self' →
  (package ∉ packagelist self')
  ∧ indexed_by_type self'
  ∧ (lower_keys self → lower_keys self').
Proof.
  intros Hnodup Hinv Hrun. unfold remove_package in Hrun.
  destruct (delete_keys _ _) as [data|e]; [|done]. simpl in Hrun.
  injection Hrun as <-. split_and!.
  - cbn [packagelist]. case_bool_decide as Hin; [|done].
    by apply not_elem_of_remove_first.
  - intros q Hq. cbn [packagelist package_type_dict] in *.
    assert (q ∈ packagelist self ∧ q ≠ package) as [Hq' Hne].
    { case_bool_decide as Hin.
      - split; [by eapply elem_of_remove_first|].
        intros ->. by eapply not_elem_of_remove_first.
      - split; [done | by intros ->]. }
    destruct (Hinv q Hq') as (bucket & Hbucket & Hqb).
    destruct (decide (PyStr.lower (package_type q)
                      = PyStr.lower (package_type package))) as [Heq|Hdiff].
    + rewrite Heq in *. rewrite Hbucket.
      assert (q ∈ (if bool_decide (package ∈ bucket)
                   then remove_first package bucket else bucket)) as Hq''.
      { destruct (bool_decide (package ∈ bucket));
          [by apply elem_of_remove_first_ne | done]. }
      destruct (length _ =? 0) eqn:Hlen.
      * apply Nat.eqb_eq, nil_length_inv in Hlen. rewrite Hlen in Hq''.
        by apply elem_of_nil in Hq''.
      * rewrite lookup_insert_eq. by eexists.
    + exists bucket. split; [|done].
      destruct (package_type_dict self !! PyStr.lower (package_type package));
        [|done].
      destruct (length _ =? 0).
      * by rewrite lookup_delete_ne.
      * by rewrite lookup_insert_ne.
  - intros (Htype & Hname & Hfile).
    split_and!; intros k [x Hx];
      cbn [package_type_dict package_name_dict package_filename_dict] in Hx.
    + destruct (package_type_dict self !! PyStr.lower (package_type package))
        as [bucket|] eqn:Hb; [|by apply Htype].
      destruct (length _ =? 0).
      * apply lookup_delete_Some in Hx as [_ Hx]. by apply Htype.
      * apply lookup_insert_Some in Hx as [[<- _]|[_ Hx]]; [|by apply Htype].
        by apply Htype.
    + destruct (package_name package) as [n|]; [|by apply Hname].
      case_bool_decide; [|by apply Hname].
      apply lookup_delete_Some in Hx as [_ Hx]. by apply Hname.
    + destruct (filename package) as [f|]; [|by apply Hfile].
      case_bool_decide; [|by apply Hfile].
      apply lookup_delete_Some in Hx as [_ Hx]. by apply Hfile.
Qed.

Lemma two_wells_indexed : NoDup (packagelist two_wells) ∧ indexed_by_type two_wells.
Proof.
  split.
  - apply NoDup_cons. split; [|apply NoDup_singleton].
    by intros [=]%list_elem_of_singleton.
  - intros q Hq. exists [example_wel; other_wel].
    apply elem_of_cons in Hq as [->|Hq%list_elem_of_singleton]; [|subst q].
    + split; [reflexivity | apply list_elem_of_here].
    + split; [reflexivity | apply list_elem_of_further, list_elem_of_here].
Qed.

Lemma remove_package_keeps_type_index_witness :
  ∃ removed,
    remove_package two_wells example_wel = Ok removed
    ∧ packagelist removed = [other_wel]
    ∧ (example_wel ∉ packagelist removed)
    ∧ indexed_by_type removed.
Proof.
  destruct (remove_package two_wells example_wel) as [removed|e] eqn:Hrun;
    [|by vm_compute in Hrun].
  destruct two_wells_indexed as [Hnodup Hindexed].
  destruct (remove_package_keeps_type_index two_wells removed example_wel
              Hnodup Hindexed Hrun) as (Hgone & Hkept & _).
  exists removed. split_and!; [done | | done | done].
  vm_compute in Hrun. injection Hrun as <-. reflexivity.
Defined.

(** ** The flag of [copy_files] *)

Lemma unquoted_absolute (f : MFFilePath) :
  MFFilePath_isabs f = true → posixpath.isabs (unquoted (PathFile f)) = true.
Proof.
  unfold MFFilePath_isabs, posixpath.isabs, unquoted.
  destruct (file_path f) as [|a s]; simpl; [done|].
  intros ->%Ascii.eqb_eq. reflexivity.
Qed.

Section copy_files_flag.
Context {World : Type} `{FileSystem World}.

Lemma copy_files_body_flag (self : MFFileMgmt) (f : MFFilePath) (w : World)
    (num : nat) :
  copy_files_body self true f w num = copy_files_body self false f w num.
Proof.
  unfold copy_files_body.
  destruct (MFFilePath_isabs f) eqn:Habs; simpl; [|done].
  apply unquoted_absolute in Habs. unfold resolve_path. rewrite Habs.
  rewrite andb_false_r, andb_true_r.
  destruct (os_path_isfile w (unquoted (PathFile f))); [|done].
  by rewrite String.eqb_refl.
Qed.

(** X23. The flag [copy_relative_only] has no effect: a file given by an
    absolute path resolves to that same path before and after the move, so
    it is never copied, and for every other file the flag is not looked
    at.  Both values give the same result and the same file system. *)
Theorem copy_files_flag_has_no_effect (self : MFFileMgmt) (w : World) :
  copy_files self true w = copy_files self false w.
Proof.
  unfold copy_files. destruct (_last_loaded_sim_path self); [|done].
  generalize (PyDict.values (existing_file_dict self)) as files.
  generalize 0 as num. intros num files. revert w num.
  induction files as [|f files IH]; intros w num; simpl; [done|].
  rewrite copy_files_body_flag.
  destruct (copy_files_body self false f w num) as [w1 [num1|e]]; [apply IH | done].
Qed.

End copy_files_flag.

(** ** Records of external files *)

(** X24. [add_ext_file] keeps every record under its own path: if each
    record of the dictionary holds the path it is stored under, so does
    each record afterwards, and the record of the added path holds that
    path. *)
Theorem add_ext_file_keyed_by_path (self : MFFileMgmt) (path model : string) :
  (∀ k f, PyDict.get k (existing_file_dict self) = Some f → file_path f = k) →
  ∀ k f,
    PyDict.get k (existing_file_dict (add_ext_file self path model)) = Some f →
    file_path f = k.
Proof.
  intros Hinv k f. unfold add_ext_file.
  destruct (PyDict.get path (existing_file_dict self)) as [g|] eqn:Hget;
    [destruct (model_name g !! model)|]; cbn [existing_file_dict].
  - apply Hinv.
  - destruct (decide (path = k)) as [<-|Hne].
    + rewrite get_set_eq. intros [= <-]. simpl. by apply Hinv.
    + rewrite get_set_ne by done. apply Hinv.
  - destruct (decide (path = k)) as [<-|Hne].
    + rewrite get_set_eq. by intros [= <-].
    + rewrite get_set_ne by done. apply Hinv.
Qed.

Lemma add_ext_file_keyed_by_path_witness :
  file_path (MFFilePath_init "a.dat" "gwf1") = "a.dat".
Proof.
  apply (add_ext_file_keyed_by_path (MFFileMgmt_init "/sim") "a.dat" "gwf1").
  - intros k f Hget. discriminate Hget.
  - reflexivity.
Defined.
